(** * Duke-Slurm conda tooling: a shallow embedding and its properties

    The three command-line utilities of the repository

      - [bin/install_requirements.py]
      - [scripts/install_conda.py]
      - [scripts/setup_conda.py]

    are embedded as functions over an explicit world (file system and
    trace of observable actions).  External processes and the network
    are oracles of the host the scripts run on. *)

From Stdlib Require Import ZArith Ascii String List Bool Lia.
From stdpp Require Import base option gmap strings list.
Import ListNotations.

Local Open Scope string_scope.
Local Open Scope list_scope.

(** ** Python string operations *)

Module Py.

(** [sub in s] on [str]: [sub] occurs in [s] as a contiguous run. *)
Fixpoint contains (sub s : string) : bool :=
  if String.prefix sub s then true
  else match s with
       | EmptyString => false
       | String _ s' => contains sub s'
       end.

(** [sep.join(l)]. *)
Definition join (sep : string) (l : list string) : string :=
  String.concat sep l.

(** Truthiness of a [str] and of a [list]. *)
Definition truthy_str (s : string) : bool :=
  match s with EmptyString => false | _ => true end.

Definition truthy_list {A} (l : list A) : bool :=
  match l with [] => false | _ => true end.

(** [s.lower()], for the ASCII text the platform module reports. *)
Definition lower_ascii (c : ascii) : ascii :=
  let n := nat_of_ascii c in
  if (65 <=? n)%nat && (n <=? 90)%nat then ascii_of_nat (n + 32) else c.

Fixpoint lower (s : string) : string :=
  match s with
  | EmptyString => EmptyString
  | String c s' => String (lower_ascii c) (lower s')
  end.

(** ["c" * n]. *)
Fixpoint repeat_str (c : string) (n : nat) : string :=
  match n with
  | O => ""
  | S k => c +:+ repeat_str c k
  end.

End Py.

Notation "a 'in_str' s" := (Py.contains a s) (at level 70, no associativity).

(** ** Exceptions *)

(** A command line handed to [subprocess.run]: a string run through the
    shell ([shell=True]) or an argument vector. *)
Inductive command :=
| Shell (line : string)
| Argv (args : list string).

Inductive exn :=
| RuntimeError (msg : string)
| ValueError (msg : string)
| TypeError (msg : string)
| FileNotFoundError (msg : string)
| CalledProcessError (returncode : Z) (cmd : command)
| TimeoutExpired (cmd : command) (timeout : nat)
| OtherException (cls : string) (msg : string)
| SystemExit (code : Z).

(** [OtherException] stands for the exceptions no handler of the scripts
    names: the [OSError]s other than [FileNotFoundError]
    ([PermissionError], [IsADirectoryError], [NotADirectoryError]),
    [UnicodeDecodeError], the exceptions of the JSON parser and of the
    network; [cls] is the name of the class, [msg] is [str(e)]. *)

(** [except Exception] catches everything but [SystemExit]. *)
Definition is_Exception (e : exn) : bool :=
  match e with SystemExit _ => false | _ => true end.

(** The [OSError] a system call fails with: [FileNotFoundError], or one
    of another class. *)
Inductive os_error :=
| NoSuchFile (msg : string)
| OtherOSError (cls : string) (msg : string).

Definition exn_of (e : os_error) : exn :=
  match e with
  | NoSuchFile msg => FileNotFoundError msg
  | OtherOSError cls msg => OtherException cls msg
  end.

(** ** The world the scripts act on *)

(** What one call of [subprocess.run] comes back with. *)
Record completed := {
  returncode : Z;
  stdout : string;
  stderr : string
}.

(** The fate of an external process: it ran and exited; the program was
    not found ([FileNotFoundError], with the text of the OS error); the
    system refused to start it for another reason (an [OSError] of
    another class: [PermissionError] for a program that is not
    executable, [OSError] for one in no executable format, ...); or it
    was still running when the [timeout] passed to [subprocess.run]
    elapsed.  A host answers [Overran] only to a call that passes a
    timeout. *)
Inductive outcome :=
| Exited (r : completed)
| NotStarted (msg : string)
| Refused (cls : string) (msg : string)
| Overran.

(** Observable actions, in the order the program performs them. *)
Inductive event :=
| Print (s : string)                    (* print(s) *)
| PrintErr (s : string)                 (* print(s, file=sys.stderr) *)
| Probe (path : string)                 (* os.path.exists / Path.exists *)
| ReadFile (path : string)              (* open(path, 'r').read() *)
| AppendFile (path : string) (s : string)   (* open(path, 'a').write(s) *)
| WriteFile (path : string) (s : string)    (* open(path, 'w').write(s) *)
| Chmod (path : string) (mode : N)      (* os.chmod *)
| Unlink (path : string)                (* Path.unlink *)
| Download (url : string) (path : string)   (* urllib.request.urlretrieve *)
| Run (cmd : command).                  (* subprocess.run *)

(** What is at a path: a file whose bytes decode to a text in the
    encoding of the host, a file whose bytes do not, or a directory. *)
Inductive node :=
| File (text : string)
| Binary (bytes : string)
| Dir.

Coercion File : string >-> node.

(** The file system is keyed by path strings: a path that is no key
    does not exist.  Mode bits and permissions are not part of the
    state ([Chmod] is traced): what exists can be read and written by
    the user. *)
Record world := {
  fs : gmap string node;
  trace : list event
}.

(** What a download comes back with: the body, or an exception, with
    whatever had been written to the target file by then. *)
Inductive fetched :=
| Fetched (body : string)
| FetchFailed (e : exn) (partial : option string).

(** ** Configuration of scripts/setup_conda.py *)

(** One environment descriptor:
    [{"python": .., "packages": {"conda": [..], "pip": [..]}, "channels": [..]}]. *)
Record package_lists := {
  conda : list string;
  pip : list string
}.

Record env_config := {
  python : string;
  packages : package_lists;
  channels : list string
}.

(** [config["environments"]]: the items of the dict in insertion order. *)
Record configuration := {
  environments : list (string * env_config)
}.

(** [name in d] and [d[name]] on such a dict. *)
Definition dict_mem {V} (name : string) (d : list (string * V)) : bool :=
  existsb (λ kv, String.eqb name (fst kv)) d.

Definition dict_get {V} (name : string) (d : list (string * V)) : option V :=
  snd <$> List.find (λ kv, String.eqb name (fst kv)) d.

(** ** The host *)

(** Everything the scripts take from their surroundings. *)
Record host := {
  (** the user's home directory as [os.path.expanduser] takes it:
      [$HOME] less its trailing slashes (empty for the root directory) *)
  home : string;
  (** [str(Path(__file__).parent.parent)] of scripts/setup_conda.py *)
  script_root : string;
  (** an external process: its fate and the file system it leaves *)
  sys_run : command → option nat → world → outcome * gmap string node;
  (** a download: what [urlretrieve] comes back with, the network and
      the opening of the target file taken together *)
  url_fetch : string → world → fetched;
  (** [json.load] on the text of a configuration file: the exception
      of the parser, or the configuration read, taken to have the
      shape of the built-in one (a dict of environments, each with its
      python version, its two package lists and its channels) *)
  json_load : string → exn + configuration;
  (** [platform.system()] and [platform.machine()] *)
  platform_system : string;
  platform_machine : string;
  (** [str(e)] for the exceptions of the [subprocess] module *)
  str_CalledProcessError : Z → command → string;
  str_TimeoutExpired : command → nat → string;
  (** [str(e)] for the [UnicodeDecodeError] that reading the bytes of a
      file as text raises *)
  str_UnicodeDecodeError : string → string;
  (** why a file cannot be opened for writing at a path, if it cannot:
      a directory is at the path ([IsADirectoryError]), the directory
      the file is to be in does not exist ([FileNotFoundError]) or is
      a file ([NotADirectoryError]), the user may not write there
      ([PermissionError]); [None] when it can *)
  open_fails : string → world → option os_error
}.

(** [str(e)]. *)
Definition str_exn (h : host) (e : exn) : string :=
  match e with
  | RuntimeError msg | ValueError msg | TypeError msg
  | FileNotFoundError msg | OtherException _ msg => msg
  | CalledProcessError rc cmd => str_CalledProcessError h rc cmd
  | TimeoutExpired cmd t => str_TimeoutExpired h cmd t
  | SystemExit code =>
      (* not reached: no handler of the scripts catches SystemExit *)
      ""
  end.

(** ** Computations: state and exceptions *)

Definition M (A : Type) : Type := world → (exn + A) * world.

Definition ret {A} (a : A) : M A := λ w, (inr a, w).

Definition raise {A} (e : exn) : M A := λ w, (inl e, w).

Definition bind {A B} (m : M A) (k : A → M B) : M B := λ w,
  match m w with
  | (inr a, w') => k a w'
  | (inl e, w') => (inl e, w')
  end.

(** [try: m  except <catches> as e: handler e]. *)
Definition try_except {A} (m : M A) (catches : exn → bool) (handler : exn → M A) : M A := λ w,
  match m w with
  | (inl e, w') => if catches e then handler e w' else (inl e, w')
  | (inr a, w') => (inr a, w')
  end.

Declare Scope py_scope.
Delimit Scope py_scope with py.
Bind Scope py_scope with M.
Notation "x ← y ; z" := (bind y (λ x, z))
  (at level 20, y at level 100, z at level 200, only parsing) : py_scope.
Notation "x ;; z" := (bind x (λ _, z))
  (at level 100, z at level 200, only parsing, right associativity) : py_scope.
Local Open Scope py_scope.

(** *** Paths *)

(** [s.split("/")]. *)
Fixpoint split_slash (s : string) : list string :=
  match s with
  | EmptyString => [EmptyString]
  | String c s' =>
      if Ascii.eqb c "/" then EmptyString :: split_slash s'
      else match split_slash s' with
           | x :: xs => String c x :: xs
           | [] => [String c EmptyString]
           end
  end.

(** The parts [pathlib] keeps of a path string: what stands between
    the slashes, less the empty parts and the ["."] parts; and its
    root: ["/"], or ["//"] for exactly two leading slashes. *)
Definition path_parts (s : string) : list string :=
  List.filter (λ x, Py.truthy_str x && negb (String.eqb x ".")) (split_slash s).

Definition path_root (s : string) : string :=
  match s with
  | String "/" (String "/" (String "/" _)) => "/"
  | String "/" (String "/" _) => "//"
  | String "/" _ => "/"
  | _ => ""
  end.

(** [s.startswith("/")]. *)
Definition is_absolute (s : string) : bool :=
  match s with
  | String c _ => Ascii.eqb c "/"
  | EmptyString => false
  end.

(** [str(Path(s))]. *)
Definition str_Path (s : string) : string :=
  match path_root s, path_parts s with
  | EmptyString, [] => "."
  | root, parts => root +:+ Py.join "/" parts
  end.

(** [str(Path(a) / b)], for [a] the text of a path: an absolute right
    operand replaces the left one; empty and ["."] parts of [b] are
    dropped, and so is the left operand ["."]. *)
Definition path_div (a b : string) : string :=
  if is_absolute b then str_Path b
  else match path_parts b with
       | [] => a
       | parts =>
           if String.eqb a "." then Py.join "/" parts
           else if String.eqb a "/" || String.eqb a "//" then a +:+ Py.join "/" parts
           else a +:+ "/" +:+ Py.join "/" parts
       end.

(** *** Primitive actions *)

Definition emit (e : event) : M unit := λ w,
  (inr tt, {| fs := fs w; trace := trace w ++ [e] |}).

Definition print (s : string) : M unit := emit (Print s).

Definition eprint (s : string) : M unit := emit (PrintErr s).

(** There is something at [path]: a file or a directory. *)
Definition on_disk (files : gmap string node) (path : string) : bool :=
  match files !! path with Some _ => true | None => false end.

(** The [OSError]s of the file operations, with their [str(e)]. *)
Definition ENOENT (path : string) : exn :=
  FileNotFoundError ("[Errno 2] No such file or directory: '" +:+ path +:+ "'").

Definition EISDIR (path : string) : exn :=
  OtherException "IsADirectoryError" ("[Errno 21] Is a directory: '" +:+ path +:+ "'").

Definition EPERM (path : string) : exn :=
  OtherException "PermissionError" ("[Errno 1] Operation not permitted: '" +:+ path +:+ "'").

(** [os.path.exists(path)], [Path(path).exists()]. *)
Definition path_exists (path : string) : M bool := λ w,
  (inr (on_disk (fs w) path), {| fs := fs w; trace := trace w ++ [Probe path] |}).

(** [with open(path, 'r') as f: f.read()]: the text of a file that
    decodes. *)
Definition read_file (h : host) (path : string) : M string := λ w,
  let w' := {| fs := fs w; trace := trace w ++ [ReadFile path] |} in
  match fs w !! path with
  | Some (File text) => (inr text, w')
  | Some (Binary bytes) =>
      (inl (OtherException "UnicodeDecodeError" (str_UnicodeDecodeError h bytes)), w')
  | Some Dir => (inl (EISDIR path), w')
  | None => (inl (ENOENT path), w')
  end.

(** What is at a path after [s] has been written at its end. *)
Definition appended (n : option node) (s : string) : node :=
  match n with
  | Some (File text) => File (text +:+ s)
  | Some (Binary bytes) => Binary (bytes +:+ s)
  | _ => File s
  end.

(** [with open(path, 'a') as f: f.write(s)]: mode ['a'] creates a
    missing file; the host tells whether the file can be opened. *)
Definition append_file (h : host) (path s : string) : M unit := λ w,
  let tr := trace w ++ [AppendFile path s] in
  match open_fails h path w with
  | Some e => (inl (exn_of e), {| fs := fs w; trace := tr |})
  | None => (inr tt, {| fs := <[path := appended (fs w !! path) s]> (fs w); trace := tr |})
  end.

(** [with open(path, 'w') as f: f.write(s)]; the host tells whether
    the file can be opened. *)
Definition write_file (h : host) (path s : string) : M unit := λ w,
  let tr := trace w ++ [WriteFile path s] in
  match open_fails h path w with
  | Some e => (inl (exn_of e), {| fs := fs w; trace := tr |})
  | None => (inr tt, {| fs := <[path := File s]> (fs w); trace := tr |})
  end.

(** [os.chmod(path, mode)]. *)
Definition chmod (path : string) (mode : N) : M unit := λ w,
  let w' := {| fs := fs w; trace := trace w ++ [Chmod path mode] |} in
  if on_disk (fs w) path then (inr tt, w')
  else (inl (ENOENT path), w').

(** [Path(path).unlink()]; on a directory the call fails, with
    [IsADirectoryError] on Linux and [PermissionError] on macOS. *)
Definition unlink (h : host) (path : string) : M unit := λ w,
  let tr := trace w ++ [Unlink path] in
  match fs w !! path with
  | Some Dir =>
      (inl (if String.eqb (Py.lower (platform_system h)) "darwin"
            then EPERM path else EISDIR path),
       {| fs := fs w; trace := tr |})
  | Some _ => (inr tt, {| fs := delete path (fs w); trace := tr |})
  | None => (inl (ENOENT path), {| fs := fs w; trace := tr |})
  end.

(** One external process: its fate and the files it leaves; a process
    that could not be started leaves them as they were. *)
Definition run_process (h : host) (cmd : command) (timeout : option nat) (w : world)
  : outcome * gmap string node :=
  let '(o, files) := sys_run h cmd timeout w in
  (o, match o with NotStarted _ | Refused _ _ => fs w | _ => files end).

(** [subprocess.run(cmd, timeout=.., check=..)]. *)
Definition subprocess_run (h : host) (cmd : command) (timeout : option nat) (check : bool)
  : M completed := λ w,
  let '(o, files) := run_process h cmd timeout w in
  let w' := {| fs := files; trace := trace w ++ [Run cmd] |} in
  match o with
  | Exited r =>
      if check && negb (returncode r =? 0)%Z
      then (inl (CalledProcessError (returncode r) cmd), w')
      else (inr r, w')
  | NotStarted msg => (inl (FileNotFoundError msg), w')
  | Refused cls msg => (inl (OtherException cls msg), w')
  | Overran => (inl (TimeoutExpired cmd (default 0%nat timeout)), w')
  end.

(** [urllib.request.urlretrieve(url, path)]: the host answers for the
    whole call; a download that succeeds leaves a file with the body
    at the path. *)
Definition urlretrieve (h : host) (url path : string) : M unit := λ w,
  let tr := trace w ++ [Download url path] in
  match url_fetch h url w with
  | Fetched body => (inr tt, {| fs := <[path := File body]> (fs w); trace := tr |})
  | FetchFailed e None => (inl e, {| fs := fs w; trace := tr |})
  | FetchFailed e (Some part) =>
      (inl e, {| fs := <[path := File part]> (fs w); trace := tr |})
  end.

(** [sys.exit(code)]. *)
Definition sys_exit {A} (code : Z) : M A := raise (SystemExit code).

(** *** The home directory *)

(** [os.path.expanduser]: a leading ["~"] or ["~/"] becomes the home
    directory; ["~user"] forms, of which the scripts have none, are
    left as they are. *)
Definition expanduser (h : host) (path : string) : string :=
  match path with
  | String "~" EmptyString => if Py.truthy_str (home h) then home h else "/"
  | String "~" (String "/" _ as rest) => home h +:+ rest
  | _ => path
  end.

(** [str(Path.home())]. *)
Definition path_home (h : host) : string := str_Path (expanduser h "~").

(** How a process ends: [sys.exit(code)], a normal return (status 0), or
    an exception nobody caught (the interpreter prints the traceback and
    the status is 1). *)
Inductive termination :=
| ExitStatus (code : Z)
| Uncaught (e : exn).

Definition run_main (main : M unit) (w : world) : termination * world :=
  match main w with
  | (inr tt, w') => (ExitStatus 0, w')
  | (inl (SystemExit code), w') => (ExitStatus code, w')
  | (inl e, w') => (Uncaught e, w')
  end.

Definition exit_status (t : termination) : Z :=
  match t with
  | ExitStatus code => code
  | Uncaught _ => 1
  end.

(** The newline and the double quote of Python's string literals. *)
Definition NL : string := String "010" EmptyString.
Definition DQ : string := String "034" EmptyString.

(** [for path in paths: expanded_path = os.path.expanduser(path);
     if os.path.exists(expanded_path): <take expanded_path and leave>]:
    the loop the three scripts share; [None] when it runs to its end. *)
Fixpoint first_existing (h : host) (paths : list string) : M (option string) :=
  match paths with
  | [] => ret None
  | path :: rest =>
      let expanded_path := expanduser h path in
      found ← path_exists expanded_path;
      if (found : bool) then ret (Some expanded_path)
      else first_existing h rest
  end.

(** [str(v)] and truthiness of a value that is [None] or a [str]. *)
Definition str_opt (v : option string) : string :=
  match v with
  | Some s => s
  | None => "None"
  end.

Definition truthy_opt_str (v : option string) : bool :=
  match v with
  | Some s => Py.truthy_str s
  | None => false
  end.

(** ** bin/install_requirements.py *)

Module InstallRequirements.

Definition conda_paths (h : host) : list string :=
  [ expanduser h "~/miniconda3/envs/torchpy310/bin/python";
    expanduser h "~/anaconda3/envs/torchpy310/bin/python";
    "/opt/conda/envs/torchpy310/bin/python" ].

Definition install_requirements (h : host) (requirements_file : string)
    (python_path : option string) : M bool :=
  present ← path_exists requirements_file;
  if negb present then
    print ("Error: " +:+ requirements_file +:+ " not found!");;
    ret false
  else
    python_path ←
      match python_path with
      | None =>
          python_path ← first_existing h (conda_paths h);
          match python_path with
          | None => ret "python3"
          | Some p => ret p
          end
      | Some p => ret p
      end;
    print ("Using Python: " +:+ python_path);;
    print ("Installing from: " +:+ requirements_file);;
    let cmd := Argv [python_path; "-m"; "pip"; "install"; "-r"; requirements_file] in
    try_except
      (_ ← subprocess_run h cmd None true;
       print "✅ Requirements installed successfully!";;
       ret true)
      (λ e, match e with CalledProcessError _ _ => true | _ => false end)
      (λ e, print ("❌ Error installing requirements: " +:+ str_exn h e);;
            ret false).

(** The parsed command line: [--requirements] (default
    ["requirements.txt"]) and [--python]. *)
Record args := {
  requirements : string;
  python_arg : option string
}.

Definition main (h : host) (a : args) : M unit :=
  success ← install_requirements h (requirements a) (python_arg a);
  if (success : bool) then
    print (NL +:+ "🎉 Installation completed!");;
    print "You can now use the environment with:";;
    print "  python scripts/utils/test_gpu.py"
  else
    print (NL +:+ "❌ Installation failed!");;
    sys_exit 1.

End InstallRequirements.

(** ** scripts/install_conda.py *)

Module InstallConda.

Record CondaInstaller := {
  system : string;
  machine : string
}.

(** [__init__]. *)
Definition init (h : host) : CondaInstaller :=
  {| system := Py.lower (platform_system h);
     machine := Py.lower (platform_machine h) |}.

(** A value that is a [pathlib] path or a plain [str]: [--dir] hands
    [install] a [str], the default directory is a path. *)
Inductive pathlike :=
| PosixPath (p : string)
| Str (s : string).

Definition str_path (v : pathlike) : string :=
  match v with PosixPath p => p | Str s => s end.

(** Truthiness: a path is always true, a [str] when it is not empty. *)
Definition truthy_pathlike (v : pathlike) : bool :=
  match v with
  | PosixPath _ => true
  | Str s => Py.truthy_str s
  end.

Definition check_conda_installed (h : host) : M bool :=
  try_except
    (result ← subprocess_run h (Argv ["conda"; "--version"]) (Some 10%nat) false;
     ret (returncode result =? 0)%Z)
    (λ e, match e with
          | TimeoutExpired _ _ | FileNotFoundError _ => true
          | _ => false
          end)
    (λ _, ret false).

Definition possible_paths : list string :=
  [ "~/miniconda3/etc/profile.d/conda.sh";
    "~/anaconda3/etc/profile.d/conda.sh";
    "/opt/conda/etc/profile.d/conda.sh";
    "/usr/local/conda/etc/profile.d/conda.sh";
    "/opt/miniconda3/etc/profile.d/conda.sh";
    "/opt/anaconda3/etc/profile.d/conda.sh" ].

Definition find_conda_path (h : host) : M (option string) :=
  first_existing h possible_paths.

Definition base_url : string := "https://repo.anaconda.com".

Definition get_download_url (self : CondaInstaller) (installer_type : string)
  : exn + string :=
  let unsupported :=
    inl (RuntimeError ("Unsupported system: " +:+ system self +:+ " " +:+ machine self)) in
  if String.eqb installer_type "miniconda" then
    if String.eqb (system self) "linux" then
      if ("x86_64" in_str machine self) || ("amd64" in_str machine self) then
        inr (base_url +:+ "/miniconda/Miniconda3-latest-Linux-x86_64.sh")
      else if ("aarch64" in_str machine self) || ("arm64" in_str machine self) then
        inr (base_url +:+ "/miniconda/Miniconda3-latest-Linux-aarch64.sh")
      else unsupported
    else if String.eqb (system self) "darwin" then
      if "x86_64" in_str machine self then
        inr (base_url +:+ "/miniconda/Miniconda3-latest-MacOSX-x86_64.sh")
      else if ("arm64" in_str machine self) || ("aarch64" in_str machine self) then
        inr (base_url +:+ "/miniconda/Miniconda3-latest-MacOSX-arm64.sh")
      else unsupported
    else unsupported
  else if String.eqb installer_type "anaconda" then
    if String.eqb (system self) "linux" then
      if ("x86_64" in_str machine self) || ("amd64" in_str machine self) then
        inr (base_url +:+ "/archive/Anaconda3-2023.09-0-Linux-x86_64.sh")
      else if ("aarch64" in_str machine self) || ("arm64" in_str machine self) then
        inr (base_url +:+ "/archive/Anaconda3-2023.09-0-Linux-aarch64.sh")
      else unsupported
    else if String.eqb (system self) "darwin" then
      if "x86_64" in_str machine self then
        inr (base_url +:+ "/archive/Anaconda3-2023.09-0-MacOSX-x86_64.sh")
      else if ("arm64" in_str machine self) || ("aarch64" in_str machine self) then
        inr (base_url +:+ "/archive/Anaconda3-2023.09-0-MacOSX-arm64.sh")
      else unsupported
    else unsupported
  else unsupported.

(** A pure result as a computation: an exception is raised. *)
Definition lift {A} (r : exn + A) : M A :=
  match r with
  | inl e => raise e
  | inr a => ret a
  end.

Definition download_installer (h : host) (url installer_type : string)
  : M (option string) :=
  let installer_name := installer_type +:+ "_installer.sh" in
  let installer_path := path_div (path_home h) installer_name in
  print ("Downloading " +:+ installer_type +:+ " installer...");;
  print ("URL: " +:+ url);;
  try_except
    (urlretrieve h url installer_path;;
     print ("Downloaded to: " +:+ installer_path);;
     ret (Some installer_path))
    is_Exception
    (λ e, print ("Error downloading installer: " +:+ str_exn h e);;
          ret None).

Definition install_conda (h : host) (installer_path : string)
    (install_dir : option string) : M (option pathlike) :=
  present ← path_exists installer_path;
  if negb present then
    raise (FileNotFoundError ("Installer not found: " +:+ installer_path))
  else
    let install_dir :=
      match install_dir with
      | None => PosixPath (path_div (path_home h) "miniconda3")
      | Some d => Str d
      end in
    print ("Installing conda to: " +:+ str_path install_dir);;
    chmod installer_path 493;;      (* 0o755 *)
    let install_cmd :=
      "bash " +:+ installer_path +:+ " -b -p " +:+ str_path install_dir in
    print ("Running: " +:+ install_cmd);;
    try_except
      (_ ← subprocess_run h (Shell install_cmd) None true;
       print "Conda installation completed successfully!";;
       unlink h installer_path;;
       print ("Cleaned up installer: " +:+ installer_path);;
       ret (Some install_dir))
      (λ e, match e with CalledProcessError _ _ => true | _ => false end)
      (λ e, print ("Error during installation: " +:+ str_exn h e);;
            ret None).

(** The block [setup_shell_integration] runs for [.bashrc] and again
    for [.zshrc]; [name] is the file's name in the message. *)
Definition add_to_rc (h : host) (rc name conda_sh : string) : M unit :=
  present ← path_exists rc;
  if (present : bool) then
    let conda_init_line := "source " +:+ DQ +:+ conda_sh +:+ DQ in
    content ← read_file h rc;
    if negb (conda_init_line in_str content) then
      append_file h rc (NL +:+ "# Conda initialization" +:+ NL +:+ conda_init_line +:+ NL);;
      print ("Added conda initialization to " +:+ name)
    else ret tt
  else ret tt.

Definition setup_shell_integration (h : host) (conda_path : pathlike) : M bool :=
  match conda_path with
  | Str _ =>
      (* conda_path / "etc" on a str *)
      raise (TypeError "unsupported operand type(s) for /: 'str' and 'str'")
  | PosixPath p =>
      let conda_sh := path_div (path_div (path_div p "etc") "profile.d") "conda.sh" in
      present ← path_exists conda_sh;
      if negb present then
        print "Warning: conda.sh not found, shell integration may not work";;
        ret false
      else
        add_to_rc h (path_div (path_home h) ".bashrc") ".bashrc" conda_sh;;
        add_to_rc h (path_div (path_home h) ".zshrc") ".zshrc" conda_sh;;
        ret true
  end.

Definition install (h : host) (self : CondaInstaller) (installer_type : string)
    (install_dir : option string) : M bool :=
  print "Checking conda installation...";;
  installed ← check_conda_installed h;
  if (installed : bool) then
    print "Conda is already installed and accessible!";;
    ret true
  else
    existing_path ← find_conda_path h;
    if truthy_opt_str existing_path then
      print ("Found existing conda installation: " +:+ str_opt existing_path);;
      print "You may need to add it to your PATH or source it manually.";;
      ret true
    else
      print ("Installing " +:+ installer_type +:+ "...");;
      try_except
        (url ← lift (get_download_url self installer_type);
         installer_path ← download_installer h url installer_type;
         match installer_path with
         | None => ret false
         | Some installer_path =>
             conda_path ← install_conda h installer_path install_dir;
             match conda_path with
             | None => ret false
             | Some conda_path =>
                 if negb (truthy_pathlike conda_path) then ret false
                 else
                   _ ← setup_shell_integration h conda_path;
                   print (NL +:+ Py.repeat_str "=" 50);;
                   print "Conda installation completed!";;
                   print (Py.repeat_str "=" 50);;
                   print ("Installation directory: " +:+ str_path conda_path);;
                   print ("Conda script: " +:+ str_path conda_path +:+ "/etc/profile.d/conda.sh");;
                   print (NL +:+ "To use conda, either:");;
                   print "1. Restart your terminal";;
                   print "2. Run: source ~/.bashrc (or ~/.zshrc)";;
                   print "3. Or manually source: source {conda_path}/etc/profile.d/conda.sh";;
                   print (NL +:+ "Then you can run: conda --version");;
                   ret true
             end
         end)
        is_Exception
        (λ e, print ("Error during installation: " +:+ str_exn h e);;
              ret false).

(** The parsed command line: [--type] (one of the two choices,
    default ["miniconda"]) and [--dir]. *)
Record args := {
  type_ : string;
  dir : option string
}.

Definition main (h : host) (a : args) : M unit :=
  let installer := init h in
  success ← install h installer (type_ a) (dir a);
  if (success : bool) then
    print (NL +:+ "Installation successful! You can now use the setup_conda.py script.")
  else
    print (NL +:+ "Installation failed. Please check the error messages above.");;
    sys_exit 1.

End InstallConda.

(** ** scripts/setup_conda.py *)

Module SetupConda.

(** The configuration [load_config] falls back to. *)
Definition default_packages : package_lists :=
  {| conda := [ "pytorch"; "torchvision"; "torchaudio"; "pytorch-cuda=11.8";
                "numpy"; "pandas"; "matplotlib"; "jupyter" ];
     pip := [ "transformers"; "datasets"; "accelerate"; "wandb";
              "tensorboard"; "scikit-learn"; "seaborn" ] |}.

Definition default_config : configuration :=
  {| environments :=
       [ ("torchpy310",
          {| python := "3.10"; packages := default_packages;
             channels := ["pytorch"; "nvidia"; "conda-forge"] |});
         ("torchpy311",
          {| python := "3.11"; packages := default_packages;
             channels := ["pytorch"; "nvidia"; "conda-forge"] |}) ] |}.

Record CondaSetup := {
  config_file : string;
  config : configuration
}.

Definition load_config (h : host) (config_file : string) : M configuration :=
  let config_path := path_div (script_root h) config_file in
  present ← path_exists config_path;
  if (present : bool) then
    text ← read_file h config_path;
    match json_load h text with
    | inl e => raise e
    | inr c => ret c
    end
  else ret default_config.

(** [__init__]. *)
Definition init (h : host) (config_file : string) : M CondaSetup :=
  c ← load_config h config_file;
  ret {| config_file := config_file; config := c |}.

Definition run_command (h : host) (command : string) (check : bool) : M completed :=
  print ("Running: " +:+ command);;
  result ← subprocess_run h (Shell command) None false;
  (if Py.truthy_str (stdout result) then print (stdout result) else ret tt);;
  (if Py.truthy_str (stderr result) then eprint (stderr result) else ret tt);;
  if check && negb (returncode result =? 0)%Z then
    raise (CalledProcessError (returncode result) (Shell command))
  else ret result.

Definition check_conda_installed (h : host) : M bool :=
  try_except
    (_ ← run_command h "conda --version" true;
     ret true)
    (λ e, match e with
          | CalledProcessError _ _ | FileNotFoundError _ => true
          | _ => false
          end)
    (λ _, ret false).

Definition possible_paths : list string :=
  [ "~/miniconda3/etc/profile.d/conda.sh";
    "~/anaconda3/etc/profile.d/conda.sh";
    "/opt/conda/etc/profile.d/conda.sh";
    "/usr/local/conda/etc/profile.d/conda.sh" ].

Definition find_conda_path (h : host) : M (option string) :=
  first_existing h possible_paths.

(** The three command lines of [setup_environment]. *)
Definition create_cmd (env_name : string) (env_config : env_config) : string :=
  "conda create -n " +:+ env_name +:+ " python=" +:+ python env_config +:+ " -y".

Definition conda_install_cmd (env_name : string) (env_config : env_config) : string :=
  let conda_packages := Py.join " " (conda (packages env_config)) in
  let channels := Py.join " " (map (λ channel, "-c " +:+ channel) (channels env_config)) in
  "conda install -n " +:+ env_name +:+ " " +:+ conda_packages +:+ " " +:+ channels +:+ " -y".

Definition pip_install_cmd (env_name : string) (env_config : env_config) : string :=
  let pip_packages := Py.join " " (pip (packages env_config)) in
  "conda run -n " +:+ env_name +:+ " pip install " +:+ pip_packages.

Definition setup_environment (h : host) (self : CondaSetup) (env_name : string) : M unit :=
  if negb (dict_mem env_name (environments (config self))) then
    raise (ValueError ("Environment '" +:+ env_name +:+ "' not found in configuration"))
  else
    match dict_get env_name (environments (config self)) with
    | None => raise (OtherException "KeyError" env_name)   (* excluded by the test above *)
    | Some env_config =>
        print ("Setting up environment: " +:+ env_name);;
        print ("Python version: " +:+ python env_config);;
        _ ← run_command h (create_cmd env_name env_config) true;
        conda_path ← find_conda_path h;
        if negb (truthy_opt_str conda_path) then
          raise (RuntimeError "Conda not found. Please install conda first.")
        else
          (if Py.truthy_list (conda (packages env_config)) then
             _ ← run_command h (conda_install_cmd env_name env_config) true;
             ret tt
           else ret tt);;
          (if Py.truthy_list (pip (packages env_config)) then
             _ ← run_command h (pip_install_cmd env_name env_config) true;
             ret tt
           else ret tt);;
          print ("Environment '" +:+ env_name +:+ "' setup complete!")
    end.

(** [for env_name, config in ...items(): print(...)]. *)
Fixpoint print_environments (items : list (string * env_config)) : M unit :=
  match items with
  | [] => ret tt
  | (env_name, config) :: rest =>
      print ("  - " +:+ env_name +:+ " (Python " +:+ python config +:+ ")");;
      print_environments rest
  end.

Definition list_environments (self : CondaSetup) : M unit :=
  print "Available environments:";;
  print_environments (environments (config self)).

(** The text of the activation script, line by line. *)
Definition script_lines (conda_path env_name : string) : list string :=
  [ "#!/bin/bash";
    "";
    "# Auto-generated activation script for " +:+ env_name;
    "# Generated by setup_conda.py";
    "";
    "# Source conda";
    "source " +:+ conda_path;
    "";
    "# Activate environment";
    "conda activate " +:+ env_name;
    "";
    "echo " +:+ DQ +:+ "Environment '" +:+ env_name +:+ "' activated!" +:+ DQ;
    "echo " +:+ DQ +:+ "Python version: $(python --version)" +:+ DQ;
    "echo " +:+ DQ +:+ "PyTorch version: $(python -c 'import torch; print(torch.__version__)' 2>/dev/null || echo 'PyTorch not installed')" +:+ DQ ].

Fixpoint unlines (lines : list string) : string :=
  match lines with
  | [] => EmptyString
  | l :: rest => l +:+ NL +:+ unlines rest
  end.

Definition script_content (conda_path env_name : string) : string :=
  unlines (script_lines conda_path env_name).

Definition script_path (h : host) (env_name : string) : string :=
  path_div (script_root h) ("activate_" +:+ env_name +:+ ".sh").

Definition create_activation_script (h : host) (env_name : string) : M unit :=
  conda_path ← find_conda_path h;
  if negb (truthy_opt_str conda_path) then
    raise (RuntimeError "Conda not found")
  else
    write_file h (script_path h env_name) (script_content (str_opt conda_path) env_name);;
    chmod (script_path h env_name) 493;;      (* 0o755 *)
    print ("Activation script created: " +:+ script_path h env_name).

(** The parsed command line: the action (one of the three choices),
    [--env] (default ["torchpy310"]) and [--config] (default
    ["config/environments.json"]). *)
Inductive action := ActSetup | ActList | ActCreateScript.

Record args := {
  act : action;
  env : string;
  config_arg : string
}.

Definition main (h : host) (a : args) : M unit :=
  setup ← init h (config_arg a);
  installed ← check_conda_installed h;
  if negb installed then
    print "Error: conda is not installed or not in PATH";;
    print "Please install conda first: https://docs.conda.io/en/latest/miniconda.html";;
    sys_exit 1
  else
    match act a with
    | ActList => list_environments setup
    | ActSetup =>
        try_except
          (setup_environment h setup (env a);;
           create_activation_script h (env a))
          is_Exception
          (λ e, print ("Error setting up environment: " +:+ str_exn h e);;
                sys_exit 1)
    | ActCreateScript => create_activation_script h (env a)
    end.

End SetupConda.

(** * Properties *)

(** ** Strings *)

Section StringFacts.

Lemma str_app_cons (c : ascii) (s t : string) : String c s +:+ t = String c (s +:+ t).
Proof. reflexivity. Qed.

Lemma str_app_nil_r (s : string) : s +:+ EmptyString = s.
Proof. induction s as [|c s IH]; [reflexivity|]. now rewrite str_app_cons, IH. Qed.

Lemma str_app_assoc (s t u : string) : (s +:+ t) +:+ u = s +:+ t +:+ u.
Proof. induction s as [|c s IH]; [reflexivity|]. now rewrite !str_app_cons, IH. Qed.

Lemma truthy_app_r (s t : string) :
  Py.truthy_str t = true → Py.truthy_str (s +:+ t) = true.
Proof. destruct s; [trivial|]. now rewrite str_app_cons. Qed.

Lemma prefix_app (a b : string) : String.prefix a (a +:+ b) = true.
Proof.
  induction a as [|c a IH]; [now destruct b|].
  rewrite str_app_cons. cbn. destruct (ascii_dec c c); [exact IH|congruence].
Qed.

Lemma prefix_spec (a s : string) :
  String.prefix a s = true ↔ ∃ b, s = a +:+ b.
Proof.
  split.
  - revert s. induction a as [|c a IH]; intros s H.
    + now exists s.
    + destruct s as [|d s]; [discriminate|]. cbn in H.
      destruct (ascii_dec c d) as [->|]; [|discriminate].
      destruct (IH _ H) as [b ->]. now exists b.
  - intros [b ->]. apply prefix_app.
Qed.





End StringFacts.

(** ** URL selection (install_conda.py) *)

Module UrlFacts.
Import InstallConda.

(** *** What a well-formed HTTPS URL is *)

Definition host_char (c : ascii) : bool :=
  let n := nat_of_ascii c in
  ((97 <=? n) && (n <=? 122) || (48 <=? n) && (n <=? 57)
   || (n =? 45) || (n =? 46))%nat.

(** Printable ASCII other than the space and the double quote. *)
Definition path_char (c : ascii) : bool :=
  let n := nat_of_ascii c in
  ((33 <=? n) && (n <=? 126) && negb (n =? 34))%nat.

Fixpoint strip_prefix (p s : string) : option string :=
  match p, s with
  | EmptyString, _ => Some s
  | String a p', String b s' => if Ascii.eqb a b then strip_prefix p' s' else None
  | String _ _, EmptyString => None
  end.

(** The text up to the first ["/"], and the rest from it on. *)
Fixpoint split_authority (s : string) : string * string :=
  match s with
  | EmptyString => (EmptyString, EmptyString)
  | String c s' =>
      if Ascii.eqb c "/" then (EmptyString, s)
      else let '(a, r) := split_authority s' in (String c a, r)
  end.

Fixpoint forall_chars (f : ascii → bool) (s : string) : bool :=
  match s with
  | EmptyString => true
  | String c s' => f c && forall_chars f s'
  end.

(** [https://], a host name that is not empty, and a path. *)
Definition well_formed_https_url (u : string) : bool :=
  match strip_prefix "https://" u with
  | None => false
  | Some rest =>
      let '(authority, path) := split_authority rest in
      Py.truthy_str authority && forall_chars host_char authority
      && forall_chars path_char path
  end.

(** *** The lookup table of [get_download_url] *)

Definition known_flavor (installer_type : string) : bool :=
  String.eqb installer_type "miniconda" || String.eqb installer_type "anaconda".

(** The machine string contains one of the four architecture names. *)
Definition names_architecture (machine : string) : bool :=
  ("x86_64" in_str machine) || ("amd64" in_str machine)
  || ("aarch64" in_str machine) || ("arm64" in_str machine).

(** The triples the table has a URL for. *)
Definition has_entry (self : CondaInstaller) (installer_type : string) : bool :=
  known_flavor installer_type
  && (String.eqb (system self) "linux" && names_architecture (machine self)
      || String.eqb (system self) "darwin"
         && (("x86_64" in_str machine self)
             || ("arm64" in_str machine self) || ("aarch64" in_str machine self))).

(** The triples outside the table whatever the reading of it: another
    flavor, another system, or a machine string that contains none of
    the four names. *)
Definition outside_table (self : CondaInstaller) (installer_type : string) : bool :=
  negb (known_flavor installer_type)
  || negb (String.eqb (system self) "linux" || String.eqb (system self) "darwin")
  || negb (names_architecture (machine self)).

Definition unsupported (self : CondaInstaller) : exn :=
  RuntimeError ("Unsupported system: " +:+ system self +:+ " " +:+ machine self).

(** The whole table: a URL exactly for the triples with an entry; on
    darwin a machine string that contains amd64 and none of the other
    three names has none. *)
Lemma get_download_url_exact (self : CondaInstaller) (installer_type : string) :
  if has_entry self installer_type then
    ∃ url, get_download_url self installer_type = inr url
           ∧ well_formed_https_url url = true
           ∧ url ≠ EmptyString
  else get_download_url self installer_type = inl (unsupported self).
Proof.
  unfold has_entry, known_flavor, names_architecture, unsupported, get_download_url.
  destruct (String.eqb installer_type "miniconda"),
           (String.eqb installer_type "anaconda"),
           (String.eqb (system self) "linux"),
           (String.eqb (system self) "darwin"),
           ("x86_64" in_str machine self), ("amd64" in_str machine self),
           ("aarch64" in_str machine self), ("arm64" in_str machine self);
    cbn [orb andb]; try reflexivity;
    (eexists; split; [reflexivity|split; [vm_compute; reflexivity|]];
     intros E; vm_compute in E; discriminate E).
Qed.

(** C1, as the code has it: for the flavors miniconda and anaconda, on
    linux when the machine string contains x86_64, amd64, aarch64 or
    arm64, and on darwin when it contains x86_64, arm64 or aarch64
    (containment, not equality), [get_download_url] returns a
    well-formed HTTPS URL that is not empty; for another flavor, another
    system, or a machine string containing none of the four names, it
    raises [RuntimeError] with the text "Unsupported system: <system>
    <machine>".  Nothing is said here of darwin with a machine string
    that contains amd64 only. *)
Theorem get_download_url_table (self : CondaInstaller) (installer_type : string) :
  if has_entry self installer_type then
    ∃ url, get_download_url self installer_type = inr url
           ∧ well_formed_https_url url = true
           ∧ url ≠ EmptyString
  else if outside_table self installer_type then
    get_download_url self installer_type = inl (unsupported self)
  else True.
Proof.
  pose proof (get_download_url_exact self installer_type) as H.
  destruct (has_entry self installer_type); [exact H|].
  now destruct (outside_table self installer_type).
Qed.

(** The two branches of the table are honest: some triples have an
    entry, some are outside. *)
Example table_branches :
  has_entry {| system := "linux"; machine := "x86_64" |} "anaconda" = true
  ∧ outside_table {| system := "windows"; machine := "amd64" |} "miniconda" = true
  ∧ outside_table {| system := "linux"; machine := "riscv64" |} "miniconda" = true
  ∧ outside_table {| system := "linux"; machine := "x86_64" |} "mambaforge" = true.
Proof. repeat split. Qed.

(** C1 as stated fails twice over: darwin with amd64 has no entry,
    and a machine string that is none of the four names but contains
    one of them gets a URL. *)
Lemma get_download_url_counterexample :
  get_download_url {| system := "darwin"; machine := "amd64" |} "miniconda"
    = inl (RuntimeError "Unsupported system: darwin amd64")
  ∧ get_download_url {| system := "darwin"; machine := "arm64e" |} "miniconda"
    = inr "https://repo.anaconda.com/miniconda/Miniconda3-latest-MacOSX-arm64.sh".
Proof. split; reflexivity. Qed.

End UrlFacts.

(** ** Stepping through a computation *)

Section MonadFacts.
Context {A B : Type}.


Lemma bind_step (m : M A) (k : A → M B) (w w' : world) (a : A) :
  m w = (inr a, w') → bind m k w = k a w'.
Proof. intros E. unfold bind. now rewrite E. Qed.

Lemma bind_raise (m : M A) (k : A → M B) (w w' : world) (e : exn) :
  m w = (inl e, w') → bind m k w = (inl e, w').
Proof. intros E. unfold bind. now rewrite E. Qed.

End MonadFacts.

(** ** A discipline on what a computation may do *)

Section Discipline.
Variable ok : event → Prop.

(** Every action [m] adds to the trace is allowed by [ok]. *)
Definition within {A} (m : M A) : Prop :=
  ∀ w, ∃ evs, trace (m w).2 = trace w ++ evs ∧ Forall ok evs.

Lemma within_ret {A} (a : A) : within (ret a).
Proof. intros w. exists []. split; [now rewrite app_nil_r|constructor]. Qed.

Lemma within_raise {A} (e : exn) : within (@raise A e).
Proof. intros w. exists []. split; [now rewrite app_nil_r|constructor]. Qed.

Lemma within_bind {A B} (m : M A) (k : A → M B) :
  within m → (∀ a, within (k a)) → within (bind m k).
Proof.
  intros Hm Hk w. destruct (Hm w) as (evs1 & E1 & H1). unfold bind.
  destruct (m w) as [[e|a] w1]; cbn [snd] in *.
  - exists evs1. now split.
  - destruct (Hk a w1) as (evs2 & E2 & H2).
    exists (evs1 ++ evs2). rewrite E2, E1, app_assoc.
    split; [reflexivity|now apply Forall_app].
Qed.

Lemma within_try_except {A} (m : M A) (catches : exn → bool) (handler : exn → M A) :
  within m → (∀ e, within (handler e)) → within (try_except m catches handler).
Proof.
  intros Hm Hh w. destruct (Hm w) as (evs1 & E1 & H1). unfold try_except.
  destruct (m w) as [[e|a] w1]; cbn [snd] in *.
  - destruct (catches e).
    + destruct (Hh e w1) as (evs2 & E2 & H2).
      exists (evs1 ++ evs2). rewrite E2, E1, app_assoc.
      split; [reflexivity|now apply Forall_app].
    + exists evs1. now split.
  - exists evs1. now split.
Qed.

Lemma within_one {A} (m : M A) (e : event) :
  ok e → (∀ w, trace (m w).2 = trace w ++ [e]) → within m.
Proof. intros He Hm w. exists [e]. split; [apply Hm|now repeat constructor]. Qed.

Lemma within_emit (e : event) : ok e → within (emit e).
Proof. intros He. now apply (within_one _ e). Qed.

Lemma within_path_exists (p : string) : ok (Probe p) → within (path_exists p).
Proof. intros He. now apply (within_one _ (Probe p)). Qed.

Lemma within_read_file (h : host) (p : string) :
  ok (ReadFile p) → within (read_file h p).
Proof.
  intros He. apply (within_one _ (ReadFile p)); [exact He|].
  intros w. unfold read_file. now destruct (fs w !! p) as [[| |]|].
Qed.

Lemma within_append_file (h : host) (p s : string) :
  ok (AppendFile p s) → within (append_file h p s).
Proof.
  intros He. apply (within_one _ (AppendFile p s)); [exact He|].
  intros w. unfold append_file. now destruct (open_fails h p w).
Qed.

Lemma within_write_file (h : host) (p s : string) :
  ok (WriteFile p s) → within (write_file h p s).
Proof.
  intros He. apply (within_one _ (WriteFile p s)); [exact He|].
  intros w. unfold write_file. now destruct (open_fails h p w).
Qed.

Lemma within_chmod (p : string) (mode : N) : ok (Chmod p mode) → within (chmod p mode).
Proof.
  intros He. apply (within_one _ (Chmod p mode)); [exact He|].
  intros w. unfold chmod. now destruct (on_disk (fs w) p).
Qed.

Lemma within_unlink (h : host) (p : string) : ok (Unlink p) → within (unlink h p).
Proof.
  intros He. apply (within_one _ (Unlink p)); [exact He|].
  intros w. unfold unlink. now destruct (fs w !! p) as [[| |]|].
Qed.

Lemma within_subprocess_run (h : host) (c : command) (t : option nat) (check : bool) :
  ok (Run c) → within (subprocess_run h c t check).
Proof.
  intros He. apply (within_one _ (Run c)); [exact He|].
  intros w. unfold subprocess_run.
  destruct (run_process h c t w) as [[r| | |] files]; [|reflexivity..].
  now destruct (check && negb (returncode r =? 0)%Z).
Qed.

Lemma within_urlretrieve (h : host) (url p : string) :
  ok (Download url p) → within (urlretrieve h url p).
Proof.
  intros He. apply (within_one _ (Download url p)); [exact He|].
  intros w. unfold urlretrieve. now destruct (url_fetch h url w) as [|? [|]].
Qed.

Lemma within_first_existing (h : host) (paths : list string) :
  (∀ p, ok (Probe p)) → within (first_existing h paths).
Proof.
  intros He. induction paths as [|p rest IH]; [apply within_ret|].
  cbn [first_existing]. apply within_bind; [now apply within_path_exists|].
  intros [|]; [apply within_ret|exact IH].
Qed.

End Discipline.

(** One step of a proof that a computation keeps a discipline. *)
Ltac within_step :=
  first
    [ apply within_ret | apply within_raise
    | apply within_emit | apply within_path_exists | apply within_read_file
    | apply within_append_file | apply within_write_file | apply within_chmod
    | apply within_unlink | apply within_subprocess_run | apply within_urlretrieve
    | apply within_first_existing; intros ?
    | apply within_bind; [|intros ?]
    | apply within_try_except; [|intros ?]
    | match goal with
      | |- within _ (if ?b then _ else _) => destruct b
      | |- within _ (match ?x with _ => _ end) => destruct x
      end ].

(** ** Reading traces *)

(** The external commands of a trace, in order. *)
Definition commands_of (evs : list event) : list command :=
  omap (λ e, match e with Run c => Some c | _ => None end) evs.

(** The paths whose existence a trace asks for, in order. *)
Definition probes_of (evs : list event) : list string :=
  omap (λ e, match e with Probe p => Some p | _ => None end) evs.

(** The actions by which the program itself changes the file system or
    fetches from the network. *)
Definition modifies (e : event) : bool :=
  match e with
  | AppendFile _ _ | WriteFile _ _ | Chmod _ _ | Unlink _ | Download _ _ => true
  | _ => false
  end.

(** The candidates a first-match search looks at: all up to and
    including the first that exists. *)
Fixpoint probed_until (files : gmap string node) (paths : list string) : list string :=
  match paths with
  | [] => []
  | p :: rest => p :: if on_disk files p then [] else probed_until files rest
  end.

Section TraceFacts.

Lemma commands_of_app (a b : list event) :
  commands_of (a ++ b) = commands_of a ++ commands_of b.
Proof. apply omap_app. Qed.

Lemma probes_of_app (a b : list event) :
  probes_of (a ++ b) = probes_of a ++ probes_of b.
Proof. apply omap_app. Qed.

Lemma commands_of_probes (l : list string) : commands_of (map Probe l) = [].
Proof. induction l; [reflexivity|exact IHl]. Qed.

Lemma probes_of_probes (l : list string) : probes_of (map Probe l) = l.
Proof. induction l; [reflexivity|]. cbn. now f_equal. Qed.

Lemma no_modifies_probes (l : list string) :
  Forall (λ e, modifies e = false) (map Probe l).
Proof. induction l; constructor; [reflexivity|assumption]. Qed.

(** The shared loop is a first-match search that changes no file and
    traces its probes. *)
Lemma first_existing_spec (h : host) (paths : list string) (w : world) :
  first_existing h paths w
  = (inr (List.find (on_disk (fs w)) (map (expanduser h) paths)),
     {| fs := fs w;
        trace := trace w ++ map Probe (probed_until (fs w) (map (expanduser h) paths)) |}).
Proof.
  revert w. induction paths as [|p rest IH]; intros w.
  - cbn. rewrite app_nil_r. now destruct w.
  - cbn [first_existing map List.find probed_until].
    unfold bind, path_exists.
    destruct (on_disk (fs w) (expanduser h p)) eqn:E.
    + reflexivity.
    + rewrite IH. cbn [fs trace]. now rewrite <- app_assoc.
Qed.

Lemma probed_until_none (files : gmap string node) (paths : list string) :
  List.find (on_disk files) paths = None → probed_until files paths = paths.
Proof.
  induction paths as [|p rest IH]; [reflexivity|]. cbn.
  destruct (on_disk files p); [discriminate|]. intros H. now rewrite IH.
Qed.

Lemma find_on_disk_none (files : gmap string node) (paths : list string) :
  (∀ p, p ∈ paths → files !! p = None) → List.find (on_disk files) paths = None.
Proof.
  induction paths as [|p rest IH]; [reflexivity|]. intros H. cbn.
  unfold on_disk at 1. rewrite (H p) by constructor.
  apply IH. intros q Hq. apply H. now constructor.
Qed.

Lemma find_on_disk_some (files : gmap string node) (paths : list string) (p : string) :
  p ∈ paths → on_disk files p = true →
  ∃ q, List.find (on_disk files) paths = Some q ∧ q ∈ paths ∧ on_disk files q = true.
Proof.
  induction paths as [|a rest IH]; intros Hin Hp; [inversion Hin|].
  cbn. destruct (on_disk files a) eqn:E.
  - exists a. repeat split; [constructor|exact E].
  - inversion Hin; subst; [congruence|].
    destruct (IH ltac:(assumption) Hp) as (q & ? & ? & ?).
    exists q. repeat split; [assumption|now constructor|assumption].
Qed.

End TraceFacts.

(** Closing the two kinds of side goals of a symbolic run: the trace is
    the old one extended, and what a filter reads off the new events. *)
Ltac trace_eq := cbn [trace fs]; rewrite <- ?app_assoc; reflexivity.

Ltac read_trace :=
  rewrite ?commands_of_app, ?probes_of_app, ?commands_of_probes, ?probes_of_probes;
  cbn; rewrite ?app_nil_r; try reflexivity.

(** ** A concrete host and world, to run the scripts on *)

Module Sample.

Definition quiet : completed :=
  {| returncode := 0; stdout := EmptyString; stderr := EmptyString |}.

(** A host on which every external command exits with status 0 and
    leaves the files as they are. *)
Definition host_ok : host :=
  {| home := "/home/u";
     script_root := "/repo";
     sys_run := λ _ _ w, (Exited quiet, fs w);
     url_fetch := λ _ _, Fetched "#!/bin/sh";
     json_load := λ _, inl (OtherException "JSONDecodeError" "Expecting value");
     platform_system := "Linux";
     platform_machine := "x86_64";
     str_CalledProcessError := λ _ _, "Command returned non-zero exit status";
     str_TimeoutExpired := λ _ _, "Command timed out";
     str_UnicodeDecodeError := λ _, "'utf-8' codec can't decode bytes";
     open_fails := λ _ _, None |}.

(** A host on which no external command can be started. *)
Definition host_bare : host :=
  {| home := "/home/u";
     script_root := "/repo";
     sys_run := λ _ _ w, (NotStarted "[Errno 2] No such file or directory", fs w);
     url_fetch := λ _ _, FetchFailed (OtherException "URLError" "unreachable") None;
     json_load := λ _, inl (OtherException "JSONDecodeError" "Expecting value");
     platform_system := "Linux";
     platform_machine := "x86_64";
     str_CalledProcessError := λ _ _, "Command returned non-zero exit status";
     str_TimeoutExpired := λ _ _, "Command timed out";
     str_UnicodeDecodeError := λ _, "'utf-8' codec can't decode bytes";
     open_fails := λ _ _, None |}.

(** A host without conda on the search path, on which the installer
    script runs and leaves conda.sh under [/home/u/miniconda3]. *)
Definition host_fresh : host :=
  {| home := "/home/u";
     script_root := "/repo";
     sys_run := λ c _ w,
       match c with
       | Shell _ =>
           (Exited quiet,
            <["/home/u/miniconda3/etc/profile.d/conda.sh" := File "# conda.sh"]> (fs w))
       | Argv _ => (NotStarted "[Errno 2] No such file or directory: 'conda'", fs w)
       end;
     url_fetch := λ _ _, Fetched "#!/bin/sh";
     json_load := λ _, inl (OtherException "JSONDecodeError" "Expecting value");
     platform_system := "Linux";
     platform_machine := "x86_64";
     str_CalledProcessError := λ _ _, "Command returned non-zero exit status";
     str_TimeoutExpired := λ _ _, "Command timed out";
     str_UnicodeDecodeError := λ _, "'utf-8' codec can't decode bytes";
     open_fails := λ _ _, None |}.

(** A world with a [.bashrc] and nothing else. *)
Definition bashrc_world : world :=
  {| fs := {[ "/home/u/.bashrc" := File "# .bashrc" ]}; trace := [] |}.

Definition empty_world : world := {| fs := ∅; trace := [] |}.

(** A world in which conda.sh is at its first candidate path, the two
    start-up files exist, and so do a manifest and one interpreter. *)
Definition conda_world : world :=
  {| fs := {[ "/home/u/miniconda3/etc/profile.d/conda.sh" := File "# conda.sh";
              "/home/u/.bashrc" := File "# .bashrc";
              "/home/u/.zshrc" := File "# .zshrc";
              "/home/u/anaconda3/envs/torchpy310/bin/python" := Binary "ELF";
              "requirements.txt" := File "numpy" ]};
     trace := [] |}.

End Sample.

(** ** The requirements installer (install_requirements.py) *)

Module RequirementsFacts.
Import InstallRequirements.

(** The interpreter candidates, as the loop expands them. *)
Definition interpreter_candidates (h : host) : list string :=
  map (expanduser h) (conda_paths h).

(** For a home directory that is an absolute path the candidates are
    the three paths of the source, ["~"] replaced by the home. *)
Lemma interpreter_candidates_home (h : host) :
  String.prefix "/" (home h) = true →
  interpreter_candidates h
  = [ home h +:+ "/miniconda3/envs/torchpy310/bin/python";
      home h +:+ "/anaconda3/envs/torchpy310/bin/python";
      "/opt/conda/envs/torchpy310/bin/python" ].
Proof.
  intros H. apply prefix_spec in H as [b H].
  unfold interpreter_candidates, conda_paths. cbn [map expanduser].
  rewrite H. reflexivity.
Qed.

(** C6, for a path at which nothing exists: [install_requirements]
    prints the error and returns [False], and the process exits with
    status 1, after one existence test of the manifest and nothing
    else: no candidate is probed, no subprocess is run. *)
Theorem manifest_not_found (h : host) (a : args) (w : world) :
  fs w !! requirements a = None →
  let report := [ Probe (requirements a);
                  Print ("Error: " +:+ requirements a +:+ " not found!") ] in
  install_requirements h (requirements a) (python_arg a) w
    = (inr false, {| fs := fs w; trace := trace w ++ report |})
  ∧ run_main (main h a) w
    = (ExitStatus 1,
       {| fs := fs w;
          trace := trace w ++ report ++ [Print (NL +:+ "❌ Installation failed!")] |})
  ∧ commands_of report = []
  ∧ probes_of report = [requirements a].
Proof.
  intros Hnone report.
  assert (E : install_requirements h (requirements a) (python_arg a) w
              = (inr false, {| fs := fs w; trace := trace w ++ report |})).
  { unfold install_requirements, bind, path_exists, on_disk.
    rewrite Hnone. cbn. now rewrite <- app_assoc. }
  split; [exact E|]. split; [|split; reflexivity].
  unfold run_main, main, bind. rewrite E. cbn.
  now rewrite <- !app_assoc.
Qed.

Lemma manifest_not_found_witness :
  fs Sample.empty_world !! "requirements.txt" = None
  ∧ run_main (main Sample.host_ok
                {| requirements := "requirements.txt"; python_arg := None |})
      Sample.empty_world
    = (ExitStatus 1,
       {| fs := ∅;
          trace := [ Probe "requirements.txt";
                     Print "Error: requirements.txt not found!";
                     Print (NL +:+ "❌ Installation failed!") ] |}).
Proof.
  split; [reflexivity|].
  apply (manifest_not_found Sample.host_ok
           {| requirements := "requirements.txt"; python_arg := None |}
           Sample.empty_world).
  reflexivity.
Defined.

(** A world with a directory where the manifest is looked for, and a
    host on which every external command exits with status 1. *)
Definition manifest_dir_world : world :=
  {| fs := {[ "requirements.txt" := Dir ]}; trace := [] |}.

Definition host_failing : host :=
  {| home := "/home/u";
     script_root := "/repo";
     sys_run := λ _ _ w,
       (Exited {| returncode := 1; stdout := EmptyString; stderr := EmptyString |}, fs w);
     url_fetch := λ _ _, FetchFailed (OtherException "URLError" "unreachable") None;
     json_load := λ _, inl (OtherException "JSONDecodeError" "Expecting value");
     platform_system := "Linux";
     platform_machine := "x86_64";
     str_CalledProcessError := λ _ _, "Command returned non-zero exit status 1.";
     str_TimeoutExpired := λ _ _, "Command timed out";
     str_UnicodeDecodeError := λ _, "'utf-8' codec can't decode bytes";
     open_fails := λ _ _, None |}.

(** C6 as stated fails: a manifest path that names a directory names
    no existing file, yet [os.path.exists] holds of it, so the three
    candidates are probed and pip is run on it; the failure reported
    is that of pip. *)
Lemma manifest_not_found_counterexample :
  fs manifest_dir_world !! "requirements.txt" = Some Dir
  ∧ run_main (main host_failing
                {| requirements := "requirements.txt"; python_arg := None |})
      manifest_dir_world
    = (ExitStatus 1,
       {| fs := fs manifest_dir_world;
          trace :=
            [ Probe "requirements.txt";
              Probe "/home/u/miniconda3/envs/torchpy310/bin/python";
              Probe "/home/u/anaconda3/envs/torchpy310/bin/python";
              Probe "/opt/conda/envs/torchpy310/bin/python";
              Print "Using Python: python3";
              Print "Installing from: requirements.txt";
              Run (Argv ["python3"; "-m"; "pip"; "install"; "-r"; "requirements.txt"]);
              Print "❌ Error installing requirements: Command returned non-zero exit status 1.";
              Print (NL +:+ "❌ Installation failed!") ] |}).
Proof. split; reflexivity. Qed.

Definition resolved (h : host) (files : gmap string node)
    (python_path : option string) : string :=
  match python_path with
  | Some p => p
  | None => default "python3" (List.find (on_disk files) (interpreter_candidates h))
  end.

(** C7: with the manifest in place, the one command run is
    [<interpreter> -m pip install -r <manifest>], where the
    interpreter is the path given, or else the first that exists of
    [~/miniconda3/envs/torchpy310/bin/python],
    [~/anaconda3/envs/torchpy310/bin/python] and
    [/opt/conda/envs/torchpy310/bin/python], in this order, or else
    ["python3"]; a given path makes the run probe no candidate, and
    otherwise the three candidates are probed in order up to the
    first that exists.  For a home directory that is an absolute
    path, ["~"] stands for it. *)
Theorem interpreter_resolution (h : host) (requirements_file : string)
    (python_path : option string) (w : world) :
  on_disk (fs w) requirements_file = true →
  let candidates :=
    map (expanduser h)
      [ expanduser h "~/miniconda3/envs/torchpy310/bin/python";
        expanduser h "~/anaconda3/envs/torchpy310/bin/python";
        "/opt/conda/envs/torchpy310/bin/python" ] in
  let interpreter :=
    match python_path with
    | Some p => p
    | None => default "python3" (List.find (on_disk (fs w)) candidates)
    end in
  (∃ r w' evs,
     install_requirements h requirements_file python_path w = (r, w')
     ∧ trace w' = trace w ++ evs
     ∧ commands_of evs
       = [ Argv [ interpreter; "-m"; "pip"; "install"; "-r"; requirements_file ] ]
     ∧ probes_of evs
       = requirements_file ::
         match python_path with
         | Some _ => []
         | None => probed_until (fs w) candidates
         end)
  ∧ (String.prefix "/" (home h) = true →
     candidates
     = [ home h +:+ "/miniconda3/envs/torchpy310/bin/python";
         home h +:+ "/anaconda3/envs/torchpy310/bin/python";
         "/opt/conda/envs/torchpy310/bin/python" ]).
Proof.
  intros Hfile candidates interpreter.
  split; [|apply interpreter_candidates_home].
  change candidates with (interpreter_candidates h) in *.
  change interpreter with (resolved h (fs w) python_path).
  clear candidates interpreter.
  unfold install_requirements, bind at 1, path_exists. rewrite Hfile. cbn [negb].
  destruct python_path as [p|].
  - cbn -[String.append]. unfold try_except, bind, subprocess_run; cbn [fs trace].
    match goal with
    | |- context [run_process h ?c ?t ?x] => destruct (run_process h c t x) as [[r| | |] files]
    end.
    + destruct (returncode r =? 0)%Z; cbn -[String.append].
      * do 3 eexists. split; [reflexivity|]. split; [trace_eq|]. split; read_trace.
      * do 3 eexists. split; [reflexivity|]. split; [trace_eq|]. split; read_trace.
    + do 3 eexists. split; [reflexivity|]. split; [trace_eq|]. split; read_trace.
    + do 3 eexists. split; [reflexivity|]. split; [trace_eq|]. split; read_trace.
    + do 3 eexists. split; [reflexivity|]. split; [trace_eq|]. split; read_trace.
  - unfold bind at 1. unfold bind at 1. rewrite first_existing_spec.
    fold (interpreter_candidates h). cbn [resolved fs trace].
    destruct (List.find (on_disk (fs w)) (interpreter_candidates h)) as [p|]; 
    cbn -[String.append interpreter_candidates probed_until];
    unfold try_except, bind, subprocess_run; cbn [fs trace];
    match goal with
    | |- context [run_process h ?c ?t ?x] => destruct (run_process h c t x) as [[r| | |] files]
    end.
    all: try (destruct (returncode r =? 0)%Z).
    all: cbn -[String.append interpreter_candidates probed_until].
    all: do 3 eexists; (split; [reflexivity|]); (split; [trace_eq|]); split; read_trace.
Qed.

Lemma interpreter_resolution_witness :
  on_disk (fs Sample.conda_world) "requirements.txt" = true
  ∧ ∃ r w' evs,
      install_requirements Sample.host_ok "requirements.txt" None Sample.conda_world
        = (r, w')
      ∧ trace w' = trace Sample.conda_world ++ evs
      ∧ commands_of evs
        = [ Argv [ "/home/u/anaconda3/envs/torchpy310/bin/python";
                   "-m"; "pip"; "install"; "-r"; "requirements.txt" ] ]
      ∧ probes_of evs
        = [ "requirements.txt";
            "/home/u/miniconda3/envs/torchpy310/bin/python";
            "/home/u/anaconda3/envs/torchpy310/bin/python" ].
Proof.
  split; [reflexivity|].
  exact (proj1 (interpreter_resolution Sample.host_ok "requirements.txt" None
                  Sample.conda_world eq_refl)).
Defined.

(** On the sample world the second candidate is the first to exist. *)
Example resolved_sample :
  resolved Sample.host_ok (fs Sample.conda_world) None
    = "/home/u/anaconda3/envs/torchpy310/bin/python"
  ∧ probed_until (fs Sample.conda_world) (interpreter_candidates Sample.host_ok)
    = [ "/home/u/miniconda3/envs/torchpy310/bin/python";
        "/home/u/anaconda3/envs/torchpy310/bin/python" ].
Proof. split; reflexivity. Qed.

End RequirementsFacts.

(** ** Shell integration (install_conda.py) *)

Module ShellFacts.
Import InstallConda.

Definition bashrc (h : host) : string := path_div (path_home h) ".bashrc".
Definition zshrc (h : host) : string := path_div (path_home h) ".zshrc".
Definition conda_sh_of (p : string) : string :=
  path_div (path_div (path_div p "etc") "profile.d") "conda.sh".

(** The line the step looks for and the text it appends. *)
Definition init_line (conda_sh : string) : string :=
  "source " +:+ DQ +:+ conda_sh +:+ DQ.

Definition init_block (conda_sh : string) : string :=
  NL +:+ "# Conda initialization" +:+ NL +:+ init_line conda_sh +:+ NL.













(** What [add_to_rc] does, by what is at [rc]. *)
Lemma add_to_rc_cases (h : host) (rc name conda_sh : string) (w : world) :
  add_to_rc h rc name conda_sh w
  = match fs w !! rc with
    | None => (inr tt, {| fs := fs w; trace := trace w ++ [Probe rc] |})
    | Some (File content) =>
        if init_line conda_sh in_str content then
          (inr tt, {| fs := fs w; trace := trace w ++ [Probe rc; ReadFile rc] |})
        else
          match open_fails h rc {| fs := fs w; trace := trace w ++ [Probe rc; ReadFile rc] |} with
          | Some e =>
              (inl (exn_of e),
               {| fs := fs w;
                  trace := trace w ++ [ Probe rc; ReadFile rc;
                                        AppendFile rc (init_block conda_sh) ] |})
          | None =>
              (inr tt,
               {| fs := <[rc := File (content +:+ init_block conda_sh)]> (fs w);
                  trace := trace w ++ [ Probe rc; ReadFile rc;
                                        AppendFile rc (init_block conda_sh);
                                        Print ("Added conda initialization to " +:+ name) ] |})
          end
    | Some (Binary bytes) =>
        (inl (OtherException "UnicodeDecodeError" (str_UnicodeDecodeError h bytes)),
         {| fs := fs w; trace := trace w ++ [Probe rc; ReadFile rc] |})
    | Some Dir =>
        (inl (EISDIR rc), {| fs := fs w; trace := trace w ++ [Probe rc; ReadFile rc] |})
    end.
Proof.
  unfold add_to_rc, bind at 1, path_exists, on_disk.
  destruct (fs w !! rc) as [[content|bytes|]|] eqn:E; [| | |reflexivity].
  - unfold bind, read_file. cbn [fs trace]. rewrite E.
    fold (init_line conda_sh).
    destruct (init_line conda_sh in_str content); cbn [negb].
    + unfold ret. f_equal. f_equal. trace_eq.
    + unfold append_file, print, emit. cbn [fs trace]. rewrite <- app_assoc. cbn [app].
      fold (init_block conda_sh).
      destruct (open_fails h rc _); cbn [fs trace]; [f_equal; f_equal; trace_eq|].
      rewrite E. cbn [appended]. f_equal. f_equal. trace_eq.
  - unfold bind, read_file. cbn [fs trace]. rewrite E. f_equal. f_equal. trace_eq.
  - unfold bind, read_file. cbn [fs trace]. rewrite E. f_equal. f_equal. trace_eq.
Qed.












(** The texts a trace appends to [rc], in order. *)
Definition appends_to (rc : string) (evs : list event) : list string :=
  omap (λ e, match e with
             | AppendFile p s => if String.eqb p rc then Some s else None
             | _ => None
             end) evs.



Lemma rc_cases (h : host) (rc : string) :
  rc ∈ [bashrc h; zshrc h] → rc = bashrc h ∨ rc = zshrc h.
Proof.
  rewrite !elem_of_cons. intros [?|[?|Hnil]]; [now left|now right|inversion Hnil].
Qed.


(** *** What the step may do, whatever it meets *)

(** From [w] to [w'] the events [evs] were added, and nothing was done
    but printing, probing, reading, and appending to files among
    [rcs] that were there: every file holds its old text, extended or
    not, nothing else has changed, and nothing has appeared. *)
Definition appends_only (rcs : list string) (w w' : world) (evs : list event) : Prop :=
  trace w' = trace w ++ evs
  ∧ (∀ q, match fs w !! q with
          | Some (File content) => ∃ suffix, fs w' !! q = Some (File (content +:+ suffix))
          | n => fs w' !! q = n
          end)
  ∧ (∀ q, q ∉ rcs → fs w' !! q = fs w !! q)
  ∧ (∀ e, e ∈ evs → match e with
                     | AppendFile p _ => p ∈ rcs ∧ on_disk (fs w) p = true
                     | Print _ | Probe _ | ReadFile _ => True
                     | _ => False
                     end).

Definition harmless (e : event) : bool :=
  match e with
  | Print _ | Probe _ | ReadFile _ => true
  | _ => false
  end.

Lemma same_node (files : gmap string node) (q : string) :
  match files !! q with
  | Some (File content) => ∃ suffix, files !! q = Some (File (content +:+ suffix))
  | n => files !! q = n
  end.
Proof.
  destruct (files !! q) as [[content|bytes|]|]; try reflexivity.
  exists EmptyString. now rewrite str_app_nil_r.
Qed.

Lemma appends_only_harmless (rcs : list string) (w : world) (evs : list event) :
  forallb harmless evs = true →
  appends_only rcs w {| fs := fs w; trace := trace w ++ evs |} evs.
Proof.
  intros Hq. split; [reflexivity|]. split; [intros q; apply same_node|].
  split; [reflexivity|].
  intros e He. rewrite forallb_forall in Hq.
  apply list_elem_of_In, Hq in He. now destruct e.
Qed.

Lemma appends_only_refl (rcs : list string) (w : world) : appends_only rcs w w [].
Proof.
  split; [now rewrite app_nil_r|]. split; [intros q; apply same_node|].
  split; [reflexivity|]. intros e He. inversion He.
Qed.

Lemma appends_only_absent (rcs : list string) (w w' : world) (evs : list event) (p : string) :
  appends_only rcs w w' evs → fs w !! p = None → fs w' !! p = None.
Proof. intros (_ & H & _) Hp. specialize (H p). now rewrite Hp in H. Qed.

Lemma appends_only_trans (rcs : list string) (w w1 w2 : world) (evs1 evs2 : list event) :
  appends_only rcs w w1 evs1 → appends_only rcs w1 w2 evs2 →
  appends_only rcs w w2 (evs1 ++ evs2).
Proof.
  intros H1 H2. pose proof (λ p, appends_only_absent _ _ _ _ p H1) as Habs.
  destruct H1 as (T1 & N1 & F1 & E1), H2 as (T2 & N2 & F2 & E2).
  split; [now rewrite T2, T1, app_assoc|]. split; [|split].
  - intros q. specialize (N1 q). specialize (N2 q).
    destruct (fs w !! q) as [[content|bytes|]|].
    + destruct N1 as [s1 N1]. rewrite N1 in N2. destruct N2 as [s2 N2].
      exists (s1 +:+ s2). now rewrite <- str_app_assoc.
    + now rewrite N1 in N2.
    + now rewrite N1 in N2.
    + now rewrite N1 in N2.
  - intros q Hq. now rewrite F2, F1.
  - intros e He. apply elem_of_app in He as [He|He]; [now apply E1|].
    specialize (E2 e He). destruct e; try exact E2.
    destruct E2 as [Hin Hd]. split; [exact Hin|].
    unfold on_disk in *. destruct (fs w !! path) eqn:Hw; [reflexivity|].
    now rewrite (Habs _ Hw) in Hd.
Qed.

Lemma appends_only_mono (rcs rcs' : list string) (w w' : world) (evs : list event) :
  (∀ p, p ∈ rcs → p ∈ rcs') → appends_only rcs w w' evs → appends_only rcs' w w' evs.
Proof.
  intros Hsub (T & N & F & E). split; [exact T|]. split; [exact N|]. split.
  - intros q Hq. apply F. intros Hin. apply Hq, Hsub, Hin.
  - intros e He. specialize (E e He). destruct e; try exact E.
    destruct E as [Hin Hd]. split; [now apply Hsub|exact Hd].
Qed.

Lemma add_to_rc_appends_only (h : host) (rc name conda_sh : string) (w : world) :
  ∃ evs, appends_only [rc] w (add_to_rc h rc name conda_sh w).2 evs.
Proof.
  rewrite add_to_rc_cases.
  destruct (fs w !! rc) as [[content|bytes|]|] eqn:E;
    try (eexists; apply appends_only_harmless; reflexivity).
  destruct (init_line conda_sh in_str content);
    [eexists; apply appends_only_harmless; reflexivity|].
  assert (Hev : ∀ e : event,
            e ∈ [ Probe rc; ReadFile rc; AppendFile rc (init_block conda_sh);
                  Print ("Added conda initialization to " +:+ name) ] →
            match e with
            | AppendFile p _ => p ∈ [rc] ∧ on_disk (fs w) p = true
            | Print _ | Probe _ | ReadFile _ => True
            | _ => False
            end).
  { intros e. rewrite !elem_of_cons, elem_of_nil.
    intros [->|[->|[->|[->|[]]]]]; try exact I.
    split; [constructor|]. unfold on_disk. now rewrite E. }
  destruct (open_fails h rc _); cbn [snd].
  - eexists. split; [reflexivity|]. split; [intros q; apply same_node|].
    split; [reflexivity|]. intros e' He. apply Hev. revert He.
    rewrite !elem_of_cons. tauto.
  - eexists. split; [reflexivity|]. cbn [fs]. split; [|split; [|exact Hev]].
    + intros q. destruct (decide (rc = q)) as [<-|Hne].
      * rewrite E, lookup_insert_eq. now eexists.
      * rewrite lookup_insert_ne by exact Hne. apply same_node.
    + intros q Hq. rewrite lookup_insert_ne; [reflexivity|].
      intros <-. apply Hq. constructor.
Qed.

Lemma setup_shell_integration_appends_only (h : host) (conda_path : pathlike) (w : world) :
  ∃ evs, appends_only [bashrc h; zshrc h] w (setup_shell_integration h conda_path w).2 evs.
Proof.
  destruct conda_path as [p|s]; [|exists []; apply appends_only_refl].
  unfold setup_shell_integration. fold (conda_sh_of p). fold (bashrc h) (zshrc h).
  unfold bind at 1, path_exists.
  destruct (on_disk (fs w) (conda_sh_of p)); cbn [negb].
  - set (w0 := {| fs := fs w; trace := trace w ++ [Probe (conda_sh_of p)] |}).
    assert (H0 : appends_only [bashrc h; zshrc h] w w0 [Probe (conda_sh_of p)])
      by now apply appends_only_harmless.
    destruct (add_to_rc_appends_only h (bashrc h) ".bashrc" (conda_sh_of p) w0)
      as (evs1 & H1).
    apply (appends_only_mono _ [bashrc h; zshrc h]) in H1;
      [|intros q Hq; apply list_elem_of_singleton in Hq as ->; constructor].
    unfold bind at 1.
    destruct (add_to_rc h (bashrc h) ".bashrc" (conda_sh_of p) w0) as [[e|[]] w1];
      cbn [snd] in *.
    + eexists. exact (appends_only_trans _ _ _ _ _ _ H0 H1).
    + destruct (add_to_rc_appends_only h (zshrc h) ".zshrc" (conda_sh_of p) w1)
        as (evs2 & H2).
      apply (appends_only_mono _ [bashrc h; zshrc h]) in H2;
        [|intros q Hq; apply list_elem_of_singleton in Hq as ->; do 2 constructor].
      unfold bind.
      destruct (add_to_rc h (zshrc h) ".zshrc" (conda_sh_of p) w1) as [[e|[]] w2];
        cbn [snd] in *; eexists;
        exact (appends_only_trans _ _ _ _ _ _ H0 (appends_only_trans _ _ _ _ _ _ H1 H2)).
  - eexists. unfold bind, print, emit, ret. cbn [snd fs trace].
    rewrite <- app_assoc. now apply appends_only_harmless.
Qed.






(** On the sample world one run appends the block to [.bashrc], and a
    second run appends nothing. *)
Example shell_integration_sample :
  let run := setup_shell_integration Sample.host_ok (PosixPath "/home/u/miniconda3") in
  let w1 := (run Sample.conda_world).2 in
  let w2 := (run w1).2 in
  fs w1 !! "/home/u/.bashrc"
    = Some (File ("# .bashrc" +:+ NL +:+ "# Conda initialization" +:+ NL
                  +:+ "source " +:+ DQ +:+ "/home/u/miniconda3/etc/profile.d/conda.sh" +:+ DQ
                  +:+ NL))
  ∧ fs w2 = fs w1
  ∧ appends_to "/home/u/.bashrc" (trace w2)
    = [init_block "/home/u/miniconda3/etc/profile.d/conda.sh"].
Proof. vm_compute. split; [reflexivity|]. split; reflexivity. Qed.

(** What [install] may do to files of its own accord: anything but
    write a file anew or append to a file other than the two start-up
    files. *)
Definition allowed (h : host) (e : event) : Prop :=
  match e with
  | AppendFile p _ => p = bashrc h ∨ p = zshrc h
  | WriteFile _ _ => False
  | _ => True
  end.

Lemma install_within (h : host) (self : CondaInstaller) (installer_type : string)
    (install_dir : option string) :
  within (allowed h) (install h self installer_type install_dir).
Proof.
  unfold install, check_conda_installed, find_conda_path, download_installer,
    install_conda, setup_shell_integration, add_to_rc, lift, print, sys_exit.
  fold (bashrc h) (zshrc h).
  repeat within_step; cbn; auto.
Qed.

(** C9: the step creates no file: a path that is absent before it is
    absent after it; it appends only to [.bashrc] and [.zshrc], and
    only when the file exists; it writes no file anew; and with
    neither start-up file present the file system is left as it was
    and nothing is appended anywhere.  Nor does any other part of
    [install] append to a file: whatever the host and the world, the
    appends of a whole run go to the two start-up files. *)
Theorem shell_integration_frame (h : host) (conda_path : pathlike) (w : world) :
  (∃ r w' evs,
    setup_shell_integration h conda_path w = (r, w')
    ∧ trace w' = trace w ++ evs
    ∧ (∀ p, fs w !! p = None → fs w' !! p = None)
    ∧ (∀ p s, AppendFile p s ∈ evs →
              p ∈ [bashrc h; zshrc h] ∧ on_disk (fs w) p = true)
    ∧ (∀ p s, WriteFile p s ∉ evs)
    ∧ (fs w !! bashrc h = None → fs w !! zshrc h = None →
       fs w' = fs w ∧ Forall (λ e, modifies e = false) evs))
  ∧ (∀ self installer_type install_dir,
       ∃ evs, trace (install h self installer_type install_dir w).2 = trace w ++ evs
              ∧ ∀ p s, AppendFile p s ∈ evs → p ∈ [bashrc h; zshrc h]).
Proof.
  split.
  2:{ intros self installer_type install_dir.
      destruct (install_within h self installer_type install_dir w) as (evs & E & Hok).
      exists evs. split; [exact E|]. intros p s Hin.
      rewrite Forall_forall in Hok. specialize (Hok _ Hin). cbn in Hok.
      rewrite !elem_of_cons. tauto. }
  destruct (setup_shell_integration_appends_only h conda_path w) as (evs & H).
  pose proof (λ p, appends_only_absent _ _ _ _ p H) as Habs.
  destruct H as (T & N & F & E).
  destruct (setup_shell_integration h conda_path w) as [r w'] eqn:Hrun. cbn [snd] in *.
  exists r, w', evs. split; [reflexivity|]. split; [exact T|]. split; [exact Habs|].
  split; [|split].
  - intros p s Hin. exact (E _ Hin).
  - intros p s Hin. exact (E _ Hin).
  - intros Hb Hz. split.
    + apply map_eq. intros q.
      destruct (decide (q ∈ [bashrc h; zshrc h])) as [Hq|Hq]; [|now apply F].
      apply rc_cases in Hq as [->| ->].
      * now rewrite Hb, (Habs _ Hb).
      * now rewrite Hz, (Habs _ Hz).
    + apply Forall_forall. intros e He. specialize (E e He).
      destruct e; try reflexivity; try contradiction.
      destruct E as [Hin Hd]. unfold on_disk in Hd.
      apply rc_cases in Hin as [->| ->]; [now rewrite Hb in Hd|now rewrite Hz in Hd].
Qed.

End ShellFacts.

(** ** The package-manager installer when conda is present (install_conda.py) *)

Module InstallFacts.
Import InstallConda.

(** The version probe of [check_conda_installed]. *)
Definition probe : command := Argv ["conda"; "--version"].

(** The probe found conda callable. *)
Definition callable (o : outcome) : bool :=
  match o with
  | Exited r => (returncode r =? 0)%Z
  | _ => false
  end.

(** The system refused to start the probe. *)
Definition refused (o : outcome) : bool :=
  match o with
  | Refused _ _ => true
  | _ => false
  end.

Definition installer_candidates (h : host) : list string :=
  map (expanduser h) possible_paths.

Lemma installer_candidates_truthy (h : host) (p : string) :
  p ∈ installer_candidates h → Py.truthy_str p = true.
Proof.
  unfold installer_candidates, possible_paths. cbn [map expanduser].
  rewrite !elem_of_cons, elem_of_nil.
  intros [->|[->|[->|[->|[->|[->|[]]]]]]]; try reflexivity;
    now apply truthy_app_r.
Qed.

(** What the probe tells: a refusal of the system is none of the two
    exceptions [check_conda_installed] catches. *)
Definition probe_answer (o : outcome) : exn + bool :=
  match o with
  | Refused cls msg => inl (OtherException cls msg)
  | _ => inr (callable o)
  end.

Lemma check_conda_installed_spec (h : host) (w : world) :
  check_conda_installed h w
  = (probe_answer (run_process h probe (Some 10%nat) w).1,
     {| fs := (run_process h probe (Some 10%nat) w).2; trace := trace w ++ [Run probe] |}).
Proof.
  unfold check_conda_installed, try_except, bind, subprocess_run. fold probe.
  destruct (run_process h probe (Some 10%nat) w) as [[r| | |] files]; reflexivity.
Qed.

Lemma probe_answer_callable (o : outcome) :
  refused o = false → probe_answer o = inr (callable o).
Proof. now destruct o. Qed.

(** C3, for a probe the system does not refuse to start: when the
    version probe finds conda callable, or it exits with another
    status, runs out of time or finds no program and conda.sh is at
    one of the six candidate paths when they are looked up, [install]
    returns [True] and [main] exits with status 0; the probe is the
    only external command; nothing is downloaded, chmod-ed, appended,
    written or removed; and the file system is the one the probe left
    (the starting one, for a probe that changes no file). *)
Theorem install_when_present (h : host) (self : CondaInstaller)
    (installer_type : string) (install_dir : option string) (w : world)
    (o : outcome) (files : gmap string node) :
  run_process h probe (Some 10%nat)
    {| fs := fs w; trace := trace w ++ [Print "Checking conda installation..."] |}
    = (o, files) →
  callable o = true
  ∨ (refused o = false ∧ ∃ p, p ∈ installer_candidates h ∧ on_disk files p = true) →
  ∃ evs,
    install h self installer_type install_dir w
      = (inr true, {| fs := files; trace := trace w ++ evs |})
    ∧ commands_of evs = [probe]
    ∧ Forall (λ e, modifies e = false) evs
    ∧ (∀ a, type_ a = installer_type → dir a = install_dir → init h = self →
         run_main (main h a) w
         = (ExitStatus 0,
            {| fs := files;
               trace := trace w ++ evs
                 ++ [Print (NL +:+ "Installation successful! You can now use the setup_conda.py script.")] |})).
Proof.
  intros Hrun Hpresent.
  assert (Hinstall : ∃ evs,
    install h self installer_type install_dir w
      = (inr true, {| fs := files; trace := trace w ++ evs |})
    ∧ commands_of evs = [probe]
    ∧ Forall (λ e, modifies e = false) evs).
  { unfold install, bind at 1, print, emit.
    unfold bind at 1. rewrite check_conda_installed_spec, Hrun. cbn [fst snd fs trace].
    rewrite probe_answer_callable
      by (destruct Hpresent as [?|[? _]]; [now destruct o|assumption]).
    destruct (callable o) eqn:Hcall.
    - eexists. split; [cbn; f_equal; f_equal; trace_eq|]. split; [reflexivity|].
      repeat constructor.
    - destruct Hpresent as [?|(_ & p & Hp & Hfile)]; [discriminate|].
      unfold bind at 1, find_conda_path. rewrite first_existing_spec.
      fold (installer_candidates h). cbn [fs trace].
      destruct (find_on_disk_some files (installer_candidates h) p Hp Hfile)
        as (q & -> & Hq & _).
      cbn [truthy_opt_str]. rewrite (installer_candidates_truthy h q Hq).
      eexists.
      split; [cbn -[installer_candidates probed_until]; f_equal; f_equal; trace_eq|].
      split.
      + read_trace.
      + rewrite !Forall_app. repeat split; try (repeat constructor).
        apply no_modifies_probes. }
  destruct Hinstall as (evs & E & Hcmds & Hquiet).
  exists evs. repeat split; try assumption.
  intros a <- <- <-. unfold run_main, main.
  rewrite (bind_step _ _ _ _ _ E). cbn. f_equal. f_equal. trace_eq.
Qed.

Lemma install_when_present_witness :
  callable (run_process Sample.host_ok probe (Some 10%nat)
              {| fs := fs Sample.conda_world;
                 trace := [Print "Checking conda installation..."] |}).1 = true
  ∧ ∃ evs,
      install Sample.host_ok (init Sample.host_ok) "miniconda" None Sample.conda_world
        = (inr true, {| fs := fs Sample.conda_world; trace := evs |})
      ∧ commands_of evs = [probe]
      ∧ Forall (λ e, modifies e = false) evs
      ∧ run_main (main Sample.host_ok {| type_ := "miniconda"; dir := None |})
          Sample.conda_world
        = (ExitStatus 0,
           {| fs := fs Sample.conda_world;
              trace := evs
                ++ [Print (NL +:+ "Installation successful! You can now use the setup_conda.py script.")] |}).
Proof.
  split; [reflexivity|].
  destruct (install_when_present Sample.host_ok (init Sample.host_ok) "miniconda" None
              Sample.conda_world (Exited Sample.quiet) (fs Sample.conda_world)
              eq_refl (or_introl eq_refl))
    as (evs & E & Hcmds & Hquiet & Hmain).
  exists evs. repeat split; try assumption.
  exact (Hmain {| type_ := "miniconda"; dir := None |} eq_refl eq_refl eq_refl).
Defined.

(** A host on which a file named conda is on the search path and is
    not executable. *)
Definition host_denied : host :=
  {| home := "/home/u";
     script_root := "/repo";
     sys_run := λ _ _ w, (Refused "PermissionError" "[Errno 13] Permission denied: 'conda'", fs w);
     url_fetch := λ _ _, FetchFailed (OtherException "URLError" "unreachable") None;
     json_load := λ _, inl (OtherException "JSONDecodeError" "Expecting value");
     platform_system := "Linux";
     platform_machine := "x86_64";
     str_CalledProcessError := λ _ _, "Command returned non-zero exit status";
     str_TimeoutExpired := λ _ _, "Command timed out";
     str_UnicodeDecodeError := λ _, "'utf-8' codec can't decode bytes";
     open_fails := λ _ _, None |}.

(** C3 as stated fails: conda.sh is at a candidate path, and the
    system refuses to start the version probe; the [PermissionError]
    is none of the exceptions [check_conda_installed] catches and is
    raised outside the [try] of [install], so [install] returns
    nothing and the exception leaves [main] uncaught. *)
Lemma install_when_present_counterexample :
  (∃ p, p ∈ installer_candidates host_denied ∧ on_disk (fs Sample.conda_world) p = true)
  ∧ install host_denied (init host_denied) "miniconda" None Sample.conda_world
    = (inl (OtherException "PermissionError" "[Errno 13] Permission denied: 'conda'"),
       {| fs := fs Sample.conda_world;
          trace := [Print "Checking conda installation..."; Run probe] |})
  ∧ run_main (main host_denied {| type_ := "miniconda"; dir := None |}) Sample.conda_world
    = (Uncaught (OtherException "PermissionError" "[Errno 13] Permission denied: 'conda'"),
       {| fs := fs Sample.conda_world;
          trace := [Print "Checking conda installation..."; Run probe] |}).
Proof.
  split; [|split; reflexivity].
  exists "/home/u/miniconda3/etc/profile.d/conda.sh". split; [|reflexivity].
  apply list_elem_of_In. left. reflexivity.
Qed.

(** The second way in: no conda on the search path, conda.sh on disk. *)
Example install_found_on_disk :
  install Sample.host_bare (init Sample.host_bare) "miniconda" None Sample.conda_world
  = (inr true,
     {| fs := fs Sample.conda_world;
        trace :=
          [ Print "Checking conda installation...";
            Run probe;
            Probe "/home/u/miniconda3/etc/profile.d/conda.sh";
            Print "Found existing conda installation: /home/u/miniconda3/etc/profile.d/conda.sh";
            Print "You may need to add it to your PATH or source it manually." ] |}).
Proof. reflexivity. Qed.

(** A fresh installation with the default directory: the installer is
    downloaded, run and removed, the block goes to the [.bashrc] that
    exists, and the [.zshrc] that does not exist is not created. *)
Example fresh_install_sample :
  let '(r, w') := install Sample.host_fresh (init Sample.host_fresh) "miniconda" None
                    Sample.bashrc_world in
  r = inr true
  ∧ fs w'
    = {[ "/home/u/.bashrc"
           := File ("# .bashrc" +:+ NL +:+ "# Conda initialization" +:+ NL
                    +:+ "source " +:+ DQ +:+ "/home/u/miniconda3/etc/profile.d/conda.sh" +:+ DQ
                    +:+ NL);
         "/home/u/miniconda3/etc/profile.d/conda.sh" := File "# conda.sh" ]}
  ∧ filter (λ e, modifies e = true) (trace w')
    = [ Download "https://repo.anaconda.com/miniconda/Miniconda3-latest-Linux-x86_64.sh"
          "/home/u/miniconda_installer.sh";
        Chmod "/home/u/miniconda_installer.sh" 493;
        Unlink "/home/u/miniconda_installer.sh";
        AppendFile "/home/u/.bashrc"
          (NL +:+ "# Conda initialization" +:+ NL
           +:+ "source " +:+ DQ +:+ "/home/u/miniconda3/etc/profile.d/conda.sh" +:+ DQ
           +:+ NL) ]
  ∧ commands_of (trace w')
    = [ Argv ["conda"; "--version"];
        Shell "bash /home/u/miniconda_installer.sh -b -p /home/u/miniconda3" ].
Proof. vm_compute. split; [reflexivity|]. split; [reflexivity|]. split; reflexivity. Qed.

(** With [--dir] the directory reaches [setup_shell_integration] as a
    [str]: the installation itself succeeds, the step raises
    [TypeError], and [install] reports failure. *)
Example install_with_dir_sample :
  let '(r, w') := install Sample.host_fresh (init Sample.host_fresh) "miniconda"
                    (Some "/opt/mc") Sample.bashrc_world in
  r = inr false
  ∧ commands_of (trace w')
    = [ Argv ["conda"; "--version"];
        Shell "bash /home/u/miniconda_installer.sh -b -p /opt/mc" ]
  ∧ last (trace w')
    = Some (Print "Error during installation: unsupported operand type(s) for /: 'str' and 'str'").
Proof. vm_compute. split; [reflexivity|]. split; [reflexivity|]. split; reflexivity. Qed.

End InstallFacts.

(** ** Environment setup (setup_conda.py) *)

Module SetupFacts.
Import SetupConda.

Definition conda_sh_candidates (h : host) : list string :=
  map (expanduser h) possible_paths.

Lemma conda_sh_candidates_truthy (h : host) (p : string) :
  p ∈ conda_sh_candidates h → Py.truthy_str p = true.
Proof.
  unfold conda_sh_candidates, possible_paths. cbn [map expanduser].
  rewrite !elem_of_cons, elem_of_nil.
  intros [->|[->|[->|[->|[]]]]]; try reflexivity; now apply truthy_app_r.
Qed.

Lemma find_conda_path_none (h : host) (w : world) :
  (∀ p, p ∈ conda_sh_candidates h → fs w !! p = None) →
  find_conda_path h w
  = (inr None, {| fs := fs w; trace := trace w ++ map Probe (conda_sh_candidates h) |}).
Proof.
  intros Hnone. unfold find_conda_path. rewrite first_existing_spec.
  fold (conda_sh_candidates h).
  pose proof (find_on_disk_none _ _ Hnone) as E.
  now rewrite E, (probed_until_none _ _ E).
Qed.


(** The files a trace writes anew, with their text, in order. *)
Definition writes_of (evs : list event) : list (string * string) :=
  omap (λ e, match e with WriteFile p s => Some (p, s) | _ => None end) evs.

Lemma writes_of_app (a b : list event) :
  writes_of (a ++ b) = writes_of a ++ writes_of b.
Proof. apply omap_app. Qed.

Lemma writes_of_probes (l : list string) : writes_of (map Probe l) = [].
Proof. induction l; [reflexivity|exact IHl]. Qed.

(** What [run_command] prints of a finished process. *)
Definition output_events (r : completed) : list event :=
  (if Py.truthy_str (stdout r) then [Print (stdout r)] else [])
  ++ (if Py.truthy_str (stderr r) then [PrintErr (stderr r)] else []).

Lemma commands_of_output (r : completed) : commands_of (output_events r) = [].
Proof.
  unfold output_events.
  now destruct (Py.truthy_str (stdout r)), (Py.truthy_str (stderr r)).
Qed.

Lemma writes_of_output (r : completed) : writes_of (output_events r) = [].
Proof.
  unfold output_events.
  now destruct (Py.truthy_str (stdout r)), (Py.truthy_str (stderr r)).
Qed.

Create Rewrite HintDb traces.
Hint Rewrite commands_of_app probes_of_app writes_of_app
  commands_of_probes probes_of_probes writes_of_probes
  commands_of_output writes_of_output : traces.



(** C5: for a name that is no key of the configured environments,
    [setup_environment] raises [ValueError] and leaves the world as
    it found it: no command is run, nothing is printed or probed;
    the [setup] action of [main] then prints the error and exits with
    status 1, the version probe of [main] being the only command of
    the process. *)
Theorem unknown_environment (h : host) (self : CondaSetup) (env_name : string) :
  dict_mem env_name (environments (config self)) = false →
  let msg := "Environment '" +:+ env_name +:+ "' not found in configuration" in
  (∀ w, setup_environment h self env_name w = (inl (ValueError msg), w))
  ∧ (∀ a w w1 w2,
       act a = ActSetup → env a = env_name →
       init h (config_arg a) w = (inr self, w1) →
       check_conda_installed h w1 = (inr true, w2) →
       run_main (main h a) w
       = (ExitStatus 1,
          {| fs := fs w2;
             trace := trace w2 ++ [Print ("Error setting up environment: " +:+ msg)] |})).
Proof.
  intros Hmem msg.
  assert (Hsetup : ∀ w, setup_environment h self env_name w = (inl (ValueError msg), w)).
  { intros w. unfold setup_environment. now rewrite Hmem. }
  split; [exact Hsetup|].
  intros a w w1 w2 Hact Henv Hinit Hcheck.
  unfold run_main, main, bind at 1. rewrite Hinit.
  unfold bind at 1. rewrite Hcheck. cbn [negb]. rewrite Hact, Henv.
  unfold try_except, bind at 1. rewrite Hsetup. reflexivity.
Qed.

(** C10: with none of the four conda.sh candidates on disk,
    [create_activation_script] raises [RuntimeError "Conda not found"]
    after probing the four paths; the file system is unchanged, so no
    script is written; this is so whatever the host answers to the
    version probe, and under [main] with conda found callable the
    exception leaves the [create-script] action uncaught. *)
Theorem activation_script_needs_conda_sh (h : host) (env_name : string) (w : world) :
  (∀ p, p ∈ conda_sh_candidates h → fs w !! p = None) →
  create_activation_script h env_name w
    = (inl (RuntimeError "Conda not found"),
       {| fs := fs w; trace := trace w ++ map Probe (conda_sh_candidates h) |})
  ∧ (∀ a w0 setup w1,
       act a = ActCreateScript → env a = env_name →
       init h (config_arg a) w0 = (inr setup, w1) →
       check_conda_installed h w1 = (inr true, w) →
       run_main (main h a) w0
       = (Uncaught (RuntimeError "Conda not found"),
          {| fs := fs w; trace := trace w ++ map Probe (conda_sh_candidates h) |})).
Proof.
  intros Hnone.
  assert (E : create_activation_script h env_name w
              = (inl (RuntimeError "Conda not found"),
                 {| fs := fs w; trace := trace w ++ map Probe (conda_sh_candidates h) |})).
  { unfold create_activation_script, bind at 1.
    now rewrite find_conda_path_none. }
  split; [exact E|].
  intros a w0 setup w1 Hact Henv Hinit Hcheck.
  unfold run_main, main, bind at 1. rewrite Hinit.
  unfold bind at 1. rewrite Hcheck. cbn [negb]. rewrite Hact, Henv, E. reflexivity.
Qed.


(** *** The scenario of one environment *)

Definition envA : env_config :=
  {| python := "3.10";
     packages := {| conda := ["numpy"]; pip := ["requests"] |};
     channels := ["conda-forge"] |}.

Definition envA_commands : list string :=
  [ "conda create -n envA python=3.10 -y";
    "conda install -n envA numpy -c conda-forge -y";
    "conda run -n envA pip install requests" ].

Lemma dict_get_mem {V} (name : string) (d : list (string * V)) (v : V) :
  dict_get name d = Some v → dict_mem name d = true.
Proof.
  unfold dict_get, dict_mem. induction d as [|[k x] d IH]; [discriminate|].
  cbn. destruct (String.eqb name k); [reflexivity|exact IH].
Qed.







(** The command lines [setup_environment] issues when nothing fails. *)
Definition planned_commands (env_name : string) (env_config : env_config)
  : list string :=
  create_cmd env_name env_config
  :: (if Py.truthy_list (conda (packages env_config))
      then [conda_install_cmd env_name env_config] else [])
  ++ (if Py.truthy_list (pip (packages env_config))
      then [pip_install_cmd env_name env_config] else []).




Example envA_planned :
  planned_commands "envA" envA = envA_commands.
Proof. reflexivity. Qed.


Definition envA_setup : CondaSetup :=
  {| config_file := "config/environments.json";
     config := {| environments := [("envA", envA)] |} |}.



(** The whole process on the scenario: a host whose configuration file
    defines "envA", conda.sh at its first candidate path.  Under [main]
    the version probe comes before the three commands. *)
Definition host_envA : host :=
  {| home := "/home/u";
     script_root := "/repo";
     sys_run := λ _ _ w, (Exited Sample.quiet, fs w);
     url_fetch := λ _ _, Fetched "#!/bin/sh";
     json_load := λ _, inr {| environments := [("envA", envA)] |};
     platform_system := "Linux";
     platform_machine := "x86_64";
     str_CalledProcessError := λ _ _, "Command returned non-zero exit status";
     str_TimeoutExpired := λ _ _, "Command timed out";
     str_UnicodeDecodeError := λ _, "'utf-8' codec can't decode bytes";
     open_fails := λ _ _, None |}.

Definition envA_world : world :=
  {| fs := {[ "/repo/config/environments.json" := File "{...}";
              "/home/u/miniconda3/etc/profile.d/conda.sh" := File "# conda.sh" ]};
     trace := [] |}.

Example main_setup_envA_sample :
  let '(t, w') := run_main (main host_envA
                              {| act := ActSetup; env := "envA";
                                 config_arg := "config/environments.json" |})
                    envA_world in
  t = ExitStatus 0
  ∧ commands_of (trace w')
    = [ Shell "conda --version";
        Shell "conda create -n envA python=3.10 -y";
        Shell "conda install -n envA numpy -c conda-forge -y";
        Shell "conda run -n envA pip install requests" ]
  ∧ writes_of (trace w')
    = [ ("/repo/activate_envA.sh",
         script_content "/home/u/miniconda3/etc/profile.d/conda.sh" "envA") ]
  ∧ fs w' !! "/repo/activate_envA.sh"
    = Some (File (script_content "/home/u/miniconda3/etc/profile.d/conda.sh" "envA")).
Proof. vm_compute. split; [reflexivity|]. split; [reflexivity|]. split; reflexivity. Qed.




Definition default_setup : CondaSetup :=
  {| config_file := "config/environments.json"; config := default_config |}.

Lemma unknown_environment_witness :
  dict_mem "envA" (environments (config default_setup)) = false
  ∧ (∀ w, setup_environment Sample.host_ok default_setup "envA" w
          = (inl (ValueError "Environment 'envA' not found in configuration"), w))
  ∧ run_main (main Sample.host_ok
                {| act := ActSetup; env := "envA";
                   config_arg := "config/environments.json" |})
      Sample.empty_world
    = (ExitStatus 1,
       {| fs := ∅;
          trace :=
            [ Probe "/repo/config/environments.json";
              Print "Running: conda --version";
              Run (Shell "conda --version");
              Print "Error setting up environment: Environment 'envA' not found in configuration" ] |}).
Proof.
  split; [reflexivity|].
  destruct (unknown_environment Sample.host_ok default_setup "envA" eq_refl)
    as [Hsetup Hmain].
  split; [exact Hsetup|].
  exact (Hmain {| act := ActSetup; env := "envA";
                  config_arg := "config/environments.json" |}
           Sample.empty_world _ _ eq_refl eq_refl eq_refl eq_refl).
Defined.

Lemma activation_script_needs_conda_sh_witness :
  (∀ p, p ∈ conda_sh_candidates Sample.host_ok → fs Sample.empty_world !! p = None)
  ∧ create_activation_script Sample.host_ok "torchpy310" Sample.empty_world
    = (inl (RuntimeError "Conda not found"),
       {| fs := ∅; trace := map Probe (conda_sh_candidates Sample.host_ok) |}).
Proof.
  assert (H : ∀ p, p ∈ conda_sh_candidates Sample.host_ok → fs Sample.empty_world !! p = None)
    by (intros p _; apply lookup_empty).
  split; [exact H|].
  exact (proj1 (activation_script_needs_conda_sh Sample.host_ok "torchpy310"
                  Sample.empty_world H)).
Defined.

(** C8 at the failing input: conda answers the version probe, conda.sh
    is at none of the four paths.  Under [create-script] the
    exception leaves [main] uncaught and [main] prints no diagnostic
    of its own; under [setup], on the same host and world, the
    failure is caught, reported and turned into exit status 1. *)
Lemma create_script_failure_not_caught :
  run_main (main Sample.host_ok
              {| act := ActCreateScript; env := "torchpy310";
                 config_arg := "config/environments.json" |})
    Sample.empty_world
  = (Uncaught (RuntimeError "Conda not found"),
     {| fs := ∅;
        trace :=
          [ Probe "/repo/config/environments.json";
            Print "Running: conda --version";
            Run (Shell "conda --version");
            Probe "/home/u/miniconda3/etc/profile.d/conda.sh";
            Probe "/home/u/anaconda3/etc/profile.d/conda.sh";
            Probe "/opt/conda/etc/profile.d/conda.sh";
            Probe "/usr/local/conda/etc/profile.d/conda.sh" ] |})
  ∧ run_main (main Sample.host_ok
                {| act := ActSetup; env := "torchpy310";
                   config_arg := "config/environments.json" |})
      Sample.empty_world
    = (ExitStatus 1,
       {| fs := ∅;
          trace :=
            [ Probe "/repo/config/environments.json";
              Print "Running: conda --version";
              Run (Shell "conda --version");
              Print "Setting up environment: torchpy310";
              Print "Python version: 3.10";
              Print "Running: conda create -n torchpy310 python=3.10 -y";
              Run (Shell "conda create -n torchpy310 python=3.10 -y");
              Probe "/home/u/miniconda3/etc/profile.d/conda.sh";
              Probe "/home/u/anaconda3/etc/profile.d/conda.sh";
              Probe "/opt/conda/etc/profile.d/conda.sh";
              Probe "/usr/local/conda/etc/profile.d/conda.sh";
              Print "Error setting up environment: Conda not found. Please install conda first." ] |}).
Proof. split; reflexivity. Qed.

End SetupFacts.

(** * Further properties of the three scripts *)

(** ** The candidate search *)

Module SearchFacts.

Lemma find_present (files : gmap string node) (l : list string) (q : string) :
  List.find (on_disk files) l = Some q →
  ∃ before after,
    l = before ++ q :: after
    ∧ on_disk files q = true
    ∧ (∀ p, p ∈ before → on_disk files p = false)
    ∧ probed_until files l = before ++ [q].
Proof.
  induction l as [|a l IH]; [discriminate|]. cbn.
  destruct (on_disk files a) eqn:E.
  - intros [= <-]. exists [], l. repeat split; [exact E|]. intros p Hp. inversion Hp.
  - intros H. destruct (IH H) as (before & after & -> & Hq & Hb & Hp).
    exists (a :: before), after. repeat split; [exact Hq| |].
    + intros p. rewrite elem_of_cons. intros [->|?]; [exact E|now apply Hb].
    + cbn. now rewrite Hp.
Qed.

Lemma find_absent (files : gmap string node) (l : list string) :
  List.find (on_disk files) l = None → ∀ p, p ∈ l → on_disk files p = false.
Proof.
  induction l as [|a l IH]; intros H p Hp; [inversion Hp|].
  cbn in H. destruct (on_disk files a) eqn:E; [discriminate|].
  apply elem_of_cons in Hp as [->|Hp]; [exact E|now apply IH].
Qed.

(** X1: the search of the three scripts is a first match in priority order:
    it answers with the first candidate that exists, having probed the
    candidates up to it and no further; it answers [None] only when no
    candidate exists, having probed them all; and it leaves every file
    as it is. *)
Theorem first_existing_priority (h : host) (paths : list string) (w : world) :
  ∃ r probed,
    first_existing h paths w
      = (inr r, {| fs := fs w; trace := trace w ++ map Probe probed |})
    ∧ match r with
      | Some q =>
          ∃ before after,
            map (expanduser h) paths = before ++ q :: after
            ∧ on_disk (fs w) q = true
            ∧ (∀ p, p ∈ before → on_disk (fs w) p = false)
            ∧ probed = before ++ [q]
      | None =>
          (∀ p, p ∈ map (expanduser h) paths → on_disk (fs w) p = false)
          ∧ probed = map (expanduser h) paths
      end.
Proof.
  rewrite first_existing_spec. do 2 eexists. split; [reflexivity|].
  destruct (List.find (on_disk (fs w)) (map (expanduser h) paths)) as [q|] eqn:E.
  - destruct (find_present _ _ _ E) as (before & after & E1 & Hq & Hb & Hp).
    exists before, after. now repeat split.
  - split; [now apply find_absent|now apply probed_until_none].
Qed.

(** The four candidates of setup_conda.py are the first four of the six
    of install_conda.py. *)
Lemma setup_paths_prefix :
  InstallConda.possible_paths
  = SetupConda.possible_paths
    ++ [ "/opt/miniconda3/etc/profile.d/conda.sh";
         "/opt/anaconda3/etc/profile.d/conda.sh" ].
Proof. reflexivity. Qed.

Lemma find_app_some {A} (f : A → bool) (l1 l2 : list A) (x : A) :
  List.find f l1 = Some x → List.find f (l1 ++ l2) = Some x.
Proof.
  induction l1 as [|a l1 IH]; [discriminate|]. cbn.
  destruct (f a); [trivial|exact IH].
Qed.

Lemma find_app_none {A} (f : A → bool) (l1 l2 : list A) :
  List.find f l1 = None → List.find f (l1 ++ l2) = List.find f l2.
Proof.
  induction l1 as [|a l1 IH]; [reflexivity|]. cbn.
  destruct (f a); [discriminate|exact IH].
Qed.

(** X2: the two scripts agree wherever setup_conda.py finds conda.sh, and
    differ only on the two [/opt] paths setup_conda.py does not know:
    what [find_conda_path] of setup_conda.py finds, that of
    install_conda.py finds too; and when setup_conda.py finds nothing,
    install_conda.py finds [/opt/miniconda3/...] or
    [/opt/anaconda3/...] if one of them exists, in this order. *)
Theorem find_conda_path_agreement (h : host) (w : world) :
  match (SetupConda.find_conda_path h w).1 with
  | inr (Some q) => (InstallConda.find_conda_path h w).1 = inr (Some q)
  | _ =>
      (InstallConda.find_conda_path h w).1
      = inr (List.find (on_disk (fs w))
               [ "/opt/miniconda3/etc/profile.d/conda.sh";
                 "/opt/anaconda3/etc/profile.d/conda.sh" ])
  end.
Proof.
  unfold SetupConda.find_conda_path, InstallConda.find_conda_path.
  rewrite !first_existing_spec. cbn [fst].
  rewrite setup_paths_prefix, map_app.
  destruct (List.find (on_disk (fs w)) (map (expanduser h) SetupConda.possible_paths))
    as [q|] eqn:E.
  - now rewrite (find_app_some _ _ _ _ E).
  - now rewrite (find_app_none _ _ _ E).
Qed.

End SearchFacts.

(** ** Which computations return, and what the others raise *)

Section Raising.

(** [m] never raises. *)
Definition returns {A} (m : M A) : Prop :=
  ∀ w, ∃ a w', m w = (inr a, w').

(** Whatever [m] raises satisfies [P]. *)
Definition raises_only (P : exn → Prop) {A} (m : M A) : Prop :=
  ∀ w e w', m w = (inl e, w') → P e.

Lemma returns_raises_only (P : exn → Prop) {A} (m : M A) :
  returns m → raises_only P m.
Proof. intros H w e w' E. destruct (H w) as (a & w1 & E1). congruence. Qed.

Lemma returns_ret {A} (a : A) : returns (ret a).
Proof. intros w. now exists a, w. Qed.

Lemma returns_bind {A B} (m : M A) (k : A → M B) :
  returns m → (∀ a, returns (k a)) → returns (bind m k).
Proof.
  intros Hm Hk w. destruct (Hm w) as (a & w1 & E). unfold bind. rewrite E. apply Hk.
Qed.

Lemma returns_try_except {A} (m : M A) (catches : exn → bool) (handler : exn → M A) :
  raises_only (λ e, catches e = true) m → (∀ e, returns (handler e)) →
  returns (try_except m catches handler).
Proof.
  intros Hm Hh w. unfold try_except. destruct (m w) as [[e|a] w1] eqn:E.
  - rewrite (Hm _ _ _ E). apply Hh.
  - now exists a, w1.
Qed.

Lemma returns_emit (e : event) : returns (emit e).
Proof. intros w. now eexists _, _. Qed.

Lemma returns_path_exists (p : string) : returns (path_exists p).
Proof. intros w. now eexists _, _. Qed.

Lemma returns_first_existing (h : host) (paths : list string) :
  returns (first_existing h paths).
Proof. intros w. rewrite first_existing_spec. now eexists _, _. Qed.

Lemma raises_only_weaken (P Q : exn → Prop) {A} (m : M A) :
  (∀ e, P e → Q e) → raises_only P m → raises_only Q m.
Proof. intros HPQ Hm w e w' E. eauto. Qed.

Lemma raises_only_raise (P : exn → Prop) {A} (e : exn) : P e → raises_only P (@raise A e).
Proof. intros He w e' w' [= <- _]. exact He. Qed.

Lemma raises_only_bind (P : exn → Prop) {A B} (m : M A) (k : A → M B) :
  raises_only P m → (∀ a, raises_only P (k a)) → raises_only P (bind m k).
Proof.
  intros Hm Hk w e w'. unfold bind. destruct (m w) as [[e1|a] w1] eqn:E.
  - intros [= <- _]. eauto.
  - apply Hk.
Qed.

Lemma raises_only_try_except (P : exn → Prop) {A} (m : M A) (catches : exn → bool)
    (handler : exn → M A) :
  raises_only (λ e, catches e = true ∨ P e) m → (∀ e, raises_only P (handler e)) →
  raises_only P (try_except m catches handler).
Proof.
  intros Hm Hh w e w'. unfold try_except. destruct (m w) as [[e1|a] w1] eqn:E; [|discriminate].
  destruct (catches e1) eqn:Hc.
  - apply Hh.
  - intros [= <- _]. destruct (Hm _ _ _ E) as [?|?]; [congruence|assumption].
Qed.

(** What the file operations raise: an [OSError], and for a read a
    [UnicodeDecodeError]. *)
Definition os_or_decode_error (e : exn) : Prop :=
  match e with
  | FileNotFoundError _ | OtherException _ _ => True
  | _ => False
  end.

Lemma exn_of_os_error (e : os_error) : os_or_decode_error (exn_of e).
Proof. now destruct e. Qed.

Lemma raises_only_os (P : exn → Prop) {A} (m : M A) :
  (∀ msg, P (FileNotFoundError msg)) → (∀ cls msg, P (OtherException cls msg)) →
  raises_only os_or_decode_error m → raises_only P m.
Proof.
  intros Hf Ho Hm w e w' E. specialize (Hm _ _ _ E). destruct e; try contradiction; auto.
Qed.

Lemma read_file_raises (h : host) (p : string) :
  raises_only os_or_decode_error (read_file h p).
Proof.
  intros w e w'. unfold read_file.
  destruct (fs w !! p) as [[| |]|]; [discriminate|..]; now intros [= <- _].
Qed.

Lemma append_file_raises (h : host) (p s : string) :
  raises_only os_or_decode_error (append_file h p s).
Proof.
  intros w e w'. unfold append_file. destruct (open_fails h p w); [|discriminate].
  intros [= <- _]. apply exn_of_os_error.
Qed.

Lemma write_file_raises (h : host) (p s : string) :
  raises_only os_or_decode_error (write_file h p s).
Proof.
  intros w e w'. unfold write_file. destruct (open_fails h p w); [|discriminate].
  intros [= <- _]. apply exn_of_os_error.
Qed.

Lemma chmod_raises (p : string) (mode : N) : raises_only os_or_decode_error (chmod p mode).
Proof.
  intros w e w'. unfold chmod. destruct (on_disk (fs w) p); [discriminate|].
  now intros [= <- _].
Qed.

Lemma unlink_raises (h : host) (p : string) : raises_only os_or_decode_error (unlink h p).
Proof.
  intros w e w'. unfold unlink.
  destruct (fs w !! p) as [[| |]|]; try discriminate; intros [= <- _]; [|exact I].
  now destruct (String.eqb _ _).
Qed.

Lemma raises_only_read_file (P : exn → Prop) (h : host) (p : string) :
  (∀ msg, P (FileNotFoundError msg)) → (∀ cls msg, P (OtherException cls msg)) →
  raises_only P (read_file h p).
Proof. intros Hf Ho. apply raises_only_os; [assumption..|apply read_file_raises]. Qed.

Lemma raises_only_append_file (P : exn → Prop) (h : host) (p s : string) :
  (∀ msg, P (FileNotFoundError msg)) → (∀ cls msg, P (OtherException cls msg)) →
  raises_only P (append_file h p s).
Proof. intros Hf Ho. apply raises_only_os; [assumption..|apply append_file_raises]. Qed.

Lemma raises_only_write_file (P : exn → Prop) (h : host) (p s : string) :
  (∀ msg, P (FileNotFoundError msg)) → (∀ cls msg, P (OtherException cls msg)) →
  raises_only P (write_file h p s).
Proof. intros Hf Ho. apply raises_only_os; [assumption..|apply write_file_raises]. Qed.

Lemma raises_only_chmod (P : exn → Prop) (p : string) (mode : N) :
  (∀ msg, P (FileNotFoundError msg)) → (∀ cls msg, P (OtherException cls msg)) →
  raises_only P (chmod p mode).
Proof. intros Hf Ho. apply raises_only_os; [assumption..|apply chmod_raises]. Qed.

Lemma raises_only_unlink (P : exn → Prop) (h : host) (p : string) :
  (∀ msg, P (FileNotFoundError msg)) → (∀ cls msg, P (OtherException cls msg)) →
  raises_only P (unlink h p).
Proof. intros Hf Ho. apply raises_only_os; [assumption..|apply unlink_raises]. Qed.

(** What [subprocess.run] raises: [CalledProcessError] only under
    [check=True], [TimeoutExpired], [FileNotFoundError], and the
    other [OSError]s. *)
Lemma raises_only_subprocess_run (P : exn → Prop) (h : host) (c : command)
    (t : option nat) (check : bool) :
  (check = true → ∀ rc, P (CalledProcessError rc c)) →
  (∀ msg, P (FileNotFoundError msg)) →
  (∀ cls msg, P (OtherException cls msg)) →
  (∀ n, P (TimeoutExpired c n)) →
  raises_only P (subprocess_run h c t check).
Proof.
  intros Hc Hf Ho Ht w e w'. unfold subprocess_run.
  destruct (run_process h c t w) as [[r| | |] files].
  - destruct check; cbn [andb]; [|discriminate].
    destruct (negb (returncode r =? 0)%Z); [|discriminate].
    intros [= <- _]. now apply Hc.
  - intros [= <- _]. apply Hf.
  - intros [= <- _]. apply Ho.
  - intros [= <- _]. apply Ht.
Qed.

(** Whatever [m] returns satisfies [P]. *)
Definition returns_only {A} (P : A → Prop) (m : M A) : Prop :=
  ∀ w a w', m w = (inr a, w') → P a.

Lemma returns_only_ret {A} (P : A → Prop) (a : A) : P a → returns_only P (ret a).
Proof. intros Ha w a' w' [= <- _]. exact Ha. Qed.

Lemma returns_only_raise {A} (P : A → Prop) (e : exn) : returns_only P (@raise A e).
Proof. intros w a w' E. discriminate E. Qed.

Lemma returns_only_bind_post {A B} (Q : A → Prop) (P : B → Prop) (m : M A) (k : A → M B) :
  returns_only Q m → (∀ a, Q a → returns_only P (k a)) → returns_only P (bind m k).
Proof.
  intros Hm Hk w b w'. unfold bind. destruct (m w) as [[e|a] w1] eqn:E; [discriminate|].
  apply Hk. exact (Hm _ _ _ E).
Qed.

Lemma returns_only_bind {A B} (P : B → Prop) (m : M A) (k : A → M B) :
  (∀ a, returns_only P (k a)) → returns_only P (bind m k).
Proof.
  intros Hk. apply (returns_only_bind_post (λ _, True)); [now intros ? ? ? _|auto].
Qed.

Lemma returns_only_try_except {A} (P : A → Prop) (m : M A) (catches : exn → bool)
    (handler : exn → M A) :
  returns_only P m → (∀ e, returns_only P (handler e)) →
  returns_only P (try_except m catches handler).
Proof.
  intros Hm Hh w a w'. unfold try_except. destruct (m w) as [[e|a'] w1] eqn:E.
  - destruct (catches e); [apply Hh|discriminate].
  - intros [= <- _]. exact (Hm _ _ _ E).
Qed.

(** A [try] whose body returns [False] if it returns, and raises only
    what the handler catches, yields [False] when the handler does. *)
Lemma try_except_false (m : M bool) (catches : exn → bool) (handler : exn → M bool) :
  raises_only (λ e, catches e = true) m →
  returns_only (λ b, b = false) m →
  (∀ e w, ∃ w', handler e w = (inr false, w')) →
  ∀ w, ∃ w', try_except m catches handler w = (inr false, w').
Proof.
  intros Hr Hv Hh w. unfold try_except. destruct (m w) as [[e|b] w1] eqn:E.
  - rewrite (Hr _ _ _ E). apply Hh.
  - rewrite (Hv _ _ _ E). now eexists.
Qed.

End Raising.

(** A download on host [h] fails with an [Exception], if it fails. *)
Definition fetch_fails_with_exception (h : host) : Prop :=
  ∀ url w e part, url_fetch h url w = FetchFailed e part → is_Exception e = true.

Lemma raises_only_urlretrieve (h : host) (url p : string) :
  fetch_fails_with_exception h →
  raises_only (λ e, is_Exception e = true) (urlretrieve h url p).
Proof.
  intros Hh w e w'. unfold urlretrieve.
  destruct (url_fetch h url w) as [body|e1 [part|]] eqn:E; [discriminate| |];
    intros [= <- _]; eapply Hh; exact E.
Qed.

(** One step of a proof that a computation returns, or raises only
    what it may. *)
Ltac returns_step :=
  first
    [ apply returns_ret | apply returns_emit | apply returns_path_exists
    | apply returns_first_existing
    | apply returns_bind; [|intros ?]
    | match goal with
      | |- returns (if ?b then _ else _) => destruct b
      | |- returns (match ?x with _ => _ end) => destruct x
      end ].

Ltac raises_step :=
  first
    [ apply returns_raises_only; solve [repeat returns_step]
    | apply raises_only_raise
    | apply raises_only_read_file; [intros ?|intros ? ?]
    | apply raises_only_append_file; [intros ?|intros ? ?]
    | apply raises_only_write_file; [intros ?|intros ? ?]
    | apply raises_only_chmod; [intros ?|intros ? ?]
    | apply raises_only_unlink; [intros ?|intros ? ?]
    | apply raises_only_subprocess_run; [intros ? ?|intros ?|intros ? ?|intros ?]
    | apply raises_only_bind; [|intros ?]
    | apply raises_only_try_except; [|intros ?]
    | match goal with
      | |- raises_only _ (if ?b then _ else _) => destruct b
      | |- raises_only _ (match ?x with _ => _ end) => destruct x
      end ].

(** ** The package-manager installer, path by path (install_conda.py) *)

Module InstallMore.
Import InstallConda InstallFacts ShellFacts UrlFacts.

Lemma get_download_url_raises (self : CondaInstaller) (installer_type : string) (e : exn) :
  get_download_url self installer_type = inl e → e = unsupported self.
Proof.
  intros E. pose proof (get_download_url_exact self installer_type) as H.
  destruct (has_entry self installer_type).
  - destruct H as (url & E1 & _). congruence.
  - congruence.
Qed.

(** What the [try] of [install] raises is an [Exception]. *)
Lemma attempt_raises (h : host) (self : CondaInstaller) (installer_type : string)
    (install_dir : option string) :
  fetch_fails_with_exception h →
  raises_only (λ e, is_Exception e = true)
    (url ← lift (get_download_url self installer_type);
     installer_path ← download_installer h url installer_type;
     match installer_path with
     | None => ret false
     | Some installer_path =>
         conda_path ← install_conda h installer_path install_dir;
         match conda_path with
         | None => ret false
         | Some conda_path =>
             if negb (truthy_pathlike conda_path) then ret false
             else
               _ ← setup_shell_integration h conda_path;
               print (NL +:+ Py.repeat_str "=" 50);;
               print "Conda installation completed!";;
               print (Py.repeat_str "=" 50);;
               print ("Installation directory: " +:+ str_path conda_path);;
               print ("Conda script: " +:+ str_path conda_path +:+ "/etc/profile.d/conda.sh");;
               print (NL +:+ "To use conda, either:");;
               print "1. Restart your terminal";;
               print "2. Run: source ~/.bashrc (or ~/.zshrc)";;
               print "3. Or manually source: source {conda_path}/etc/profile.d/conda.sh";;
               print (NL +:+ "Then you can run: conda --version");;
               ret true
         end
     end).
Proof.
  intros Hfetch.
  apply raises_only_bind.
  { destruct (get_download_url self installer_type) as [e|url] eqn:E.
    - apply raises_only_raise. now rewrite (get_download_url_raises _ _ _ E).
    - apply returns_raises_only, returns_ret. }
  intros url.
  unfold download_installer, install_conda, setup_shell_integration, add_to_rc, print.
  repeat
    first
      [ raises_step
      | eapply raises_only_weaken;
        [|apply raises_only_urlretrieve; exact Hfetch]; cbn; auto ];
    cbn; auto.
Qed.

(** Once the probe has answered, [install] never raises, provided a
    failing download fails with an [Exception]: every failure inside
    it ends as the value [False]. *)
Lemma install_after_probe (h : host) (self : CondaInstaller) (installer_type : string)
    (install_dir : option string) (w : world) (o : outcome) (files : gmap string node) :
  fetch_fails_with_exception h →
  run_process h probe (Some 10%nat)
    {| fs := fs w; trace := trace w ++ [Print "Checking conda installation..."] |}
    = (o, files) →
  refused o = false →
  ∃ success w1, install h self installer_type install_dir w = (inr success, w1).
Proof.
  intros Hfetch Hrun Href.
  unfold install, bind at 1, print at 1, emit. unfold bind at 1.
  rewrite check_conda_installed_spec, Hrun. cbn [fst snd].
  rewrite probe_answer_callable by assumption.
  match goal with |- ∃ b w1, ?m ?x = _ => generalize x; change (returns m) end.
  unfold print.
  destruct (callable o); [repeat returns_step|].
  apply returns_bind; [apply returns_first_existing|intros existing].
  destruct (truthy_opt_str existing); [repeat returns_step|].
  apply returns_bind; [apply returns_emit|intros _].
  apply returns_try_except; [|intros e; repeat returns_step].
  now apply attempt_raises.
Qed.

(** X3: how [main] of install_conda.py ends, provided a failing
    download fails with an [Exception].  When the system refuses to
    start the version probe, the exception is none of those
    [check_conda_installed] catches: it leaves [install] and [main]
    uncaught, nothing else having happened.  In every other case
    [install] returns, and [main] ends with status 0 after the
    success message when it returned [True], with status 1 after the
    failure message when it returned [False]. *)
Theorem install_main_exit_status (h : host) (a : args) (w : world) (o : outcome)
    (files : gmap string node) :
  fetch_fails_with_exception h →
  run_process h probe (Some 10%nat)
    {| fs := fs w; trace := trace w ++ [Print "Checking conda installation..."] |}
    = (o, files) →
  match o with
  | Refused cls msg =>
      run_main (main h a) w
      = (Uncaught (OtherException cls msg),
         {| fs := files;
            trace := trace w ++ [Print "Checking conda installation..."; Run probe] |})
  | _ =>
      ∃ success w1,
        install h (init h) (type_ a) (dir a) w = (inr success, w1)
        ∧ run_main (main h a) w
          = (ExitStatus (if success then 0 else 1)%Z,
             {| fs := fs w1;
                trace := trace w1
                  ++ [Print (NL +:+ (if success
                        then "Installation successful! You can now use the setup_conda.py script."
                        else "Installation failed. Please check the error messages above."))] |})
  end.
Proof.
  intros Hfetch Hrun.
  assert (Hret : refused o = false →
            ∃ success w1,
              install h (init h) (type_ a) (dir a) w = (inr success, w1)
              ∧ run_main (main h a) w
                = (ExitStatus (if success then 0 else 1)%Z,
                   {| fs := fs w1;
                      trace := trace w1
                        ++ [Print (NL +:+ (if success
                              then "Installation successful! You can now use the setup_conda.py script."
                              else "Installation failed. Please check the error messages above."))] |})).
  { intros Href.
    destruct (install_after_probe h (init h) (type_ a) (dir a) w o files Hfetch Hrun Href)
      as (b & w1 & E).
    exists b, w1. split; [exact E|].
    unfold run_main, main. rewrite (bind_step _ _ _ _ _ E).
    now destruct b. }
  destruct o as [r|msg|cls msg|]; try (apply Hret; reflexivity).
  unfold run_main, main, bind at 1, install, bind at 1, print at 1, emit.
  unfold bind at 1. rewrite check_conda_installed_spec, Hrun. cbn.
  f_equal. f_equal. trace_eq.
Qed.

Lemma install_main_exit_status_witness :
  fetch_fails_with_exception host_denied
  ∧ run_main (main host_denied {| type_ := "miniconda"; dir := None |}) Sample.conda_world
    = (Uncaught (OtherException "PermissionError" "[Errno 13] Permission denied: 'conda'"),
       {| fs := fs Sample.conda_world;
          trace := [Print "Checking conda installation..."; Run probe] |}).
Proof.
  assert (H : fetch_fails_with_exception host_denied)
    by (intros url w e part [= <- _]; reflexivity).
  split; [exact H|].
  exact (install_main_exit_status host_denied {| type_ := "miniconda"; dir := None |}
           Sample.conda_world
           (Refused "PermissionError" "[Errno 13] Permission denied: 'conda'")
           (fs Sample.conda_world) H eq_refl).
Defined.

(** *** A run that finds no conda *)

(** The version probe on [w] does not find conda callable, and leaves
    the files [files], none of the six candidates among them. *)
Definition fresh_start (h : host) (w : world) (files : gmap string node) : Prop :=
  ∃ o,
    run_process h probe (Some 10%nat)
      {| fs := fs w; trace := trace w ++ [Print "Checking conda installation..."] |}
      = (o, files)
    ∧ probe_answer o = inr false
    ∧ ∀ p, p ∈ installer_candidates h → files !! p = None.

(** What such a run has done when it reaches the [try] of [install]. *)
Definition fresh_events (h : host) (installer_type : string) : list event :=
  [Print "Checking conda installation..."; Run probe]
  ++ map Probe (installer_candidates h)
  ++ [Print ("Installing " +:+ installer_type +:+ "...")].

(** The [try] of [install] with its handler. *)
Definition attempt (h : host) (self : CondaInstaller) (installer_type : string)
    (install_dir : option string) : M bool :=
  try_except
    (url ← lift (get_download_url self installer_type);
     installer_path ← download_installer h url installer_type;
     match installer_path with
     | None => ret false
     | Some installer_path =>
         conda_path ← install_conda h installer_path install_dir;
         match conda_path with
         | None => ret false
         | Some conda_path =>
             if negb (truthy_pathlike conda_path) then ret false
             else
               _ ← setup_shell_integration h conda_path;
               print (NL +:+ Py.repeat_str "=" 50);;
               print "Conda installation completed!";;
               print (Py.repeat_str "=" 50);;
               print ("Installation directory: " +:+ str_path conda_path);;
               print ("Conda script: " +:+ str_path conda_path +:+ "/etc/profile.d/conda.sh");;
               print (NL +:+ "To use conda, either:");;
               print "1. Restart your terminal";;
               print "2. Run: source ~/.bashrc (or ~/.zshrc)";;
               print "3. Or manually source: source {conda_path}/etc/profile.d/conda.sh";;
               print (NL +:+ "Then you can run: conda --version");;
               ret true
         end
     end)
    is_Exception
    (λ e, print ("Error during installation: " +:+ str_exn h e);;
          ret false).

Lemma install_fresh (h : host) (self : CondaInstaller) (installer_type : string)
    (install_dir : option string) (w : world) (files : gmap string node) :
  fresh_start h w files →
  install h self installer_type install_dir w
  = attempt h self installer_type install_dir
      {| fs := files; trace := trace w ++ fresh_events h installer_type |}.
Proof.
  intros (o & Hrun & Hcall & Hnone).
  unfold install, bind at 1, print, emit.
  unfold bind at 1. rewrite check_conda_installed_spec, Hrun. cbn [fst snd fs trace].
  rewrite Hcall.
  unfold bind at 1, find_conda_path. rewrite first_existing_spec.
  fold (installer_candidates h). cbn [fs trace].
  pose proof (find_on_disk_none _ _ Hnone) as E.
  rewrite E, (probed_until_none _ _ E). cbn [truthy_opt_str].
  unfold bind at 1. cbn [fs trace]. unfold attempt, fresh_events, print.
  f_equal. f_equal. trace_eq.
Qed.


Lemma on_disk_insert_eq (files : gmap string node) (p text : string) :
  on_disk (<[p := File text]> files) p = true.
Proof. unfold on_disk. now rewrite lookup_insert_eq. Qed.

Ltac unfold_run :=
  unfold attempt, download_installer, install_conda, setup_shell_integration, add_to_rc,
    try_except, bind, lift, urlretrieve, subprocess_run, chmod, unlink, path_exists,
    read_file, append_file, print, emit, ret, raise.

(** Where the installer script is downloaded to, where conda goes by
    default, and the command line that runs the installer. *)
Definition installer_file (h : host) (installer_type : string) : string :=
  path_div (path_home h) (installer_type +:+ "_installer.sh").

Definition default_dir (h : host) : string := path_div (path_home h) "miniconda3".

Definition installer_cmd (installer_path dir : string) : string :=
  "bash " +:+ installer_path +:+ " -b -p " +:+ dir.

Definition dir_text (h : host) (install_dir : option string) : string :=
  match install_dir with Some d => d | None => default_dir h end.

(** X4: on a platform without an entry a run that finds no conda
    downloads nothing and runs nothing but the version probe: it
    reports the unsupported platform and [install] returns [False]. *)
Theorem install_unsupported_platform (h : host) (self : CondaInstaller)
    (installer_type : string) (install_dir : option string) (w : world)
    (files : gmap string node) :
  fresh_start h w files →
  has_entry self installer_type = false →
  install h self installer_type install_dir w
  = (inr false,
     {| fs := files;
        trace := trace w ++ fresh_events h installer_type
          ++ [Print ("Error during installation: Unsupported system: "
                     +:+ system self +:+ " " +:+ machine self)] |}).
Proof.
  intros Hfresh Hentry. rewrite (install_fresh _ _ _ _ _ _ Hfresh).
  pose proof (get_download_url_exact self installer_type) as E.
  rewrite Hentry in E.
  unfold attempt, try_except, bind at 1, lift. rewrite E. cbn.
  f_equal. f_equal. now rewrite <- app_assoc.
Qed.

(** X5: when the download fails, [install] reports it and returns
    [False] without touching the installer any further: no chmod, no
    command; what the failed download left of the file stays. *)
Theorem install_download_failed (h : host) (self : CondaInstaller)
    (installer_type : string) (install_dir : option string) (w : world)
    (files : gmap string node) (url : string) (e : exn) (part : option string) :
  fresh_start h w files →
  get_download_url self installer_type = inr url →
  (∀ w', url_fetch h url w' = FetchFailed e part) →
  is_Exception e = true →
  install h self installer_type install_dir w
  = (inr false,
     {| fs := match part with
              | Some text => <[installer_file h installer_type := File text]> files
              | None => files
              end;
        trace := trace w ++ fresh_events h installer_type
          ++ [ Print ("Downloading " +:+ installer_type +:+ " installer...");
               Print ("URL: " +:+ url);
               Download url (installer_file h installer_type);
               Print ("Error downloading installer: " +:+ str_exn h e) ] |}).
Proof.
  intros Hfresh Hurl Hfetch He. rewrite (install_fresh _ _ _ _ _ _ Hfresh).
  unfold attempt, try_except at 1, bind at 1, lift. rewrite Hurl.
  unfold ret at 1. unfold bind at 1, download_installer, print, emit.
  fold (installer_file h installer_type).
  unfold bind at 1. unfold bind at 1. cbn [fs trace].
  unfold try_except, bind at 1, urlretrieve. rewrite Hfetch.
  destruct part as [text|]; rewrite He; cbn; f_equal; f_equal; trace_eq.
Qed.

(** Every run of [cmd] exits as [r] and turns the files [f] into
    [effect f]. *)
Definition runs_as (h : host) (cmd : command) (r : completed)
    (effect : gmap string node → gmap string node) : Prop :=
  ∀ w, run_process h cmd None w = (Exited r, effect (fs w)).

(** What [install] has done once the installer is downloaded and about
    to run. *)
Definition download_events (h : host) (installer_type url dir : string) : list event :=
  [ Print ("Downloading " +:+ installer_type +:+ " installer...");
    Print ("URL: " +:+ url);
    Download url (installer_file h installer_type);
    Print ("Downloaded to: " +:+ installer_file h installer_type);
    Probe (installer_file h installer_type);
    Print ("Installing conda to: " +:+ dir);
    Chmod (installer_file h installer_type) 493;
    Print ("Running: " +:+ installer_cmd (installer_file h installer_type) dir);
    Run (Shell (installer_cmd (installer_file h installer_type) dir)) ].

(** X6: when the installer exits with another status than 0, [install]
    reports it and returns [False]; the downloaded installer is not
    removed and no start-up file is looked at. *)
Theorem install_installer_failed (h : host) (self : CondaInstaller)
    (installer_type : string) (install_dir : option string) (w : world)
    (files : gmap string node) (url body : string) (r : completed)
    (effect : gmap string node → gmap string node) :
  fresh_start h w files →
  get_download_url self installer_type = inr url →
  (∀ w', url_fetch h url w' = Fetched body) →
  runs_as h (Shell (installer_cmd (installer_file h installer_type)
                      (dir_text h install_dir))) r effect →
  returncode r ≠ 0%Z →
  install h self installer_type install_dir w
  = (inr false,
     {| fs := effect (<[installer_file h installer_type := File body]> files);
        trace := trace w ++ fresh_events h installer_type
          ++ download_events h installer_type url (dir_text h install_dir)
          ++ [ Print ("Error during installation: "
                      +:+ str_CalledProcessError h (returncode r)
                            (Shell (installer_cmd (installer_file h installer_type)
                                      (dir_text h install_dir)))) ] |}).
Proof.
  intros Hfresh Hurl Hfetch Hrun Hrc. rewrite (install_fresh _ _ _ _ _ _ Hfresh).
  apply Z.eqb_neq in Hrc.
  assert (Hdir : str_path match install_dir with
                          | Some d => Str d
                          | None => PosixPath (path_div (path_home h) "miniconda3")
                          end = dir_text h install_dir) by now destruct install_dir.
  unfold_run. fold (installer_file h installer_type). rewrite !Hdir.
  fold (installer_cmd (installer_file h installer_type) (dir_text h install_dir)).
  repeat (cbn [fs trace negb andb];
          first [ rewrite Hurl | rewrite Hfetch | rewrite Hrun | rewrite Hrc
                | rewrite (on_disk_insert_eq files (installer_file h installer_type) body) ]).
  cbn. f_equal. f_equal. unfold download_events. trace_eq.
Qed.





(** [install_conda] hands back [None] or the directory it was given. *)
Lemma install_conda_value (h : host) (installer_path : string) (install_dir : option string) :
  returns_only
    (λ v, v = None
          ∨ v = Some match install_dir with
                     | None => PosixPath (path_div (path_home h) "miniconda3")
                     | Some d => Str d
                     end)
    (install_conda h installer_path install_dir).
Proof.
  unfold install_conda.
  apply returns_only_bind. intros present.
  destruct (negb present); [apply returns_only_raise|].
  do 3 (apply returns_only_bind; intros _).
  apply returns_only_try_except.
  - do 4 (apply returns_only_bind; intros ?). apply returns_only_ret. now right.
  - intros e. apply returns_only_bind; intros _. apply returns_only_ret. now left.
Qed.

(** X8: with [--dir] a run that finds no conda never reports success.
    The directory is then a [str], on which the path arithmetic of
    [setup_shell_integration] raises [TypeError]: whatever the host
    answers, [install] returns [False], also when the installation
    itself went through. *)
Theorem install_with_dir_returns_false (h : host) (self : CondaInstaller)
    (installer_type dir : string) (w : world) (files : gmap string node) :
  fresh_start h w files →
  fetch_fails_with_exception h →
  ∃ w', install h self installer_type (Some dir) w = (inr false, w').
Proof.
  intros Hfresh Hfetch. rewrite (install_fresh _ _ _ _ _ _ Hfresh).
  unfold attempt. apply try_except_false.
  - apply (attempt_raises h self installer_type (Some dir) Hfetch).
  - apply returns_only_bind. intros url.
    apply returns_only_bind. intros [installer_path|]; [|now apply returns_only_ret].
    eapply returns_only_bind_post; [apply (install_conda_value h installer_path (Some dir))|].
    intros conda_path [->| ->]; [now apply returns_only_ret|].
    destruct (negb (truthy_pathlike (Str dir))); [now apply returns_only_ret|].
    apply returns_only_bind_post with (Q := λ _, False); [|intros ? []].
    intros x b x' E. discriminate E.
  - intros e x. unfold bind, print, emit, ret. now eexists.
Qed.

(** *** Hosts and worlds to run these on *)

Definition failed : completed :=
  {| returncode := 1; stdout := EmptyString; stderr := EmptyString |}.

(** A host without conda on which the installer script exits with
    status 1. *)
Definition host_broken : host :=
  {| home := "/home/u";
     script_root := "/repo";
     sys_run := λ c _ w,
       match c with
       | Shell _ => (Exited failed, fs w)
       | Argv _ => (NotStarted "[Errno 2] No such file or directory: 'conda'", fs w)
       end;
     url_fetch := λ _ _, Fetched "#!/bin/sh";
     json_load := λ _, inl (OtherException "JSONDecodeError" "Expecting value");
     platform_system := "Linux";
     platform_machine := "x86_64";
     str_CalledProcessError := λ _ _, "Command returned non-zero exit status";
     str_TimeoutExpired := λ _ _, "Command timed out";
     str_UnicodeDecodeError := λ _, "'utf-8' codec can't decode bytes";
     open_fails := λ _ _, None |}.

Lemma no_candidate_in (files : gmap string node) :
  forallb (λ p, negb (on_disk files p)) (installer_candidates Sample.host_ok) = true →
  ∀ p, p ∈ installer_candidates Sample.host_ok → files !! p = None.
Proof.
  intros H p Hp. rewrite forallb_forall in H.
  apply list_elem_of_In, H in Hp. unfold on_disk in Hp.
  now destruct (files !! p).
Qed.

Lemma fresh_start_bare : fresh_start Sample.host_bare Sample.empty_world ∅.
Proof.
  exists (NotStarted "[Errno 2] No such file or directory").
  split; [reflexivity|]. split; [reflexivity|]. intros p _. apply lookup_empty.
Qed.

Lemma fresh_start_fresh :
  fresh_start Sample.host_fresh Sample.bashrc_world (fs Sample.bashrc_world).
Proof.
  exists (NotStarted "[Errno 2] No such file or directory: 'conda'").
  split; [reflexivity|]. split; [reflexivity|].
  now apply (no_candidate_in (fs Sample.bashrc_world)).
Qed.

Lemma fresh_start_broken :
  fresh_start host_broken Sample.bashrc_world (fs Sample.bashrc_world).
Proof.
  exists (NotStarted "[Errno 2] No such file or directory: 'conda'").
  split; [reflexivity|]. split; [reflexivity|].
  now apply (no_candidate_in (fs Sample.bashrc_world)).
Qed.

Lemma install_unsupported_platform_witness :
  fresh_start Sample.host_bare Sample.empty_world ∅
  ∧ install Sample.host_bare {| system := "windows"; machine := "amd64" |} "miniconda"
      None Sample.empty_world
    = (inr false,
       {| fs := ∅;
          trace := fresh_events Sample.host_bare "miniconda"
            ++ [Print "Error during installation: Unsupported system: windows amd64"] |}).
Proof.
  split; [exact fresh_start_bare|].
  exact (install_unsupported_platform Sample.host_bare
           {| system := "windows"; machine := "amd64" |} "miniconda" None
           Sample.empty_world ∅ fresh_start_bare eq_refl).
Defined.

Lemma install_download_failed_witness :
  fresh_start Sample.host_bare Sample.empty_world ∅
  ∧ install Sample.host_bare (init Sample.host_bare) "anaconda" None Sample.empty_world
    = (inr false,
       {| fs := ∅;
          trace := fresh_events Sample.host_bare "anaconda"
            ++ [ Print "Downloading anaconda installer...";
                 Print "URL: https://repo.anaconda.com/archive/Anaconda3-2023.09-0-Linux-x86_64.sh";
                 Download "https://repo.anaconda.com/archive/Anaconda3-2023.09-0-Linux-x86_64.sh"
                   "/home/u/anaconda_installer.sh";
                 Print "Error downloading installer: unreachable" ] |}).
Proof.
  split; [exact fresh_start_bare|].
  exact (install_download_failed Sample.host_bare (init Sample.host_bare) "anaconda" None
           Sample.empty_world ∅ _ (OtherException "URLError" "unreachable") None
           fresh_start_bare eq_refl (λ _, eq_refl) eq_refl).
Defined.

Lemma install_installer_failed_witness :
  fresh_start host_broken Sample.bashrc_world (fs Sample.bashrc_world)
  ∧ (install host_broken (init host_broken) "miniconda" None Sample.bashrc_world).1
    = inr false
  ∧ fs (install host_broken (init host_broken) "miniconda" None Sample.bashrc_world).2
    = {[ "/home/u/.bashrc" := File "# .bashrc";
         "/home/u/miniconda_installer.sh" := File "#!/bin/sh" ]}.
Proof.
  split; [exact fresh_start_broken|].
  rewrite (install_installer_failed host_broken (init host_broken) "miniconda" None
             Sample.bashrc_world (fs Sample.bashrc_world) _ "#!/bin/sh" failed (λ f, f)
             fresh_start_broken eq_refl (λ _, eq_refl) (λ _, eq_refl)
             ltac:(discriminate)).
  split; [reflexivity|]. vm_compute. reflexivity.
Defined.



Lemma install_with_dir_returns_false_witness :
  fresh_start Sample.host_fresh Sample.bashrc_world (fs Sample.bashrc_world)
  ∧ fetch_fails_with_exception Sample.host_fresh
  ∧ ∃ w', install Sample.host_fresh (init Sample.host_fresh) "miniconda" (Some "/opt/mc")
            Sample.bashrc_world = (inr false, w').
Proof.
  assert (H : fetch_fails_with_exception Sample.host_fresh)
    by (intros url w e part [=]).
  split; [exact fresh_start_fresh|]. split; [exact H|].
  exact (install_with_dir_returns_false Sample.host_fresh (init Sample.host_fresh)
           "miniconda" "/opt/mc" Sample.bashrc_world (fs Sample.bashrc_world)
           fresh_start_fresh H).
Defined.

End InstallMore.

(** ** Shell integration never shortens a file (install_conda.py) *)

Module ShellMore.
Import InstallConda ShellFacts.

(** X9: the shell-integration step only ever adds to the end of a file:
    whatever it is given, every file keeps its old text as the start
    of its new text; a directory, and a file that does not decode,
    are left as they are. *)
Theorem shell_integration_never_truncates (h : host) (conda_path : pathlike) (w : world)
    (q : string) (n : node) :
  fs w !! q = Some n →
  match n with
  | File content =>
      ∃ suffix,
        fs (setup_shell_integration h conda_path w).2 !! q = Some (File (content +:+ suffix))
  | _ => fs (setup_shell_integration h conda_path w).2 !! q = Some n
  end.
Proof.
  intros Hq.
  destruct (setup_shell_integration_appends_only h conda_path w) as (evs & _ & N & _).
  specialize (N q). rewrite Hq in N. now destruct n.
Qed.

Lemma shell_integration_never_truncates_witness :
  fs Sample.conda_world !! "/home/u/.bashrc" = Some (File "# .bashrc")
  ∧ ∃ suffix,
      fs (setup_shell_integration Sample.host_ok (PosixPath "/home/u/miniconda3")
            Sample.conda_world).2 !! "/home/u/.bashrc"
      = Some (File ("# .bashrc" +:+ suffix)).
Proof.
  split; [reflexivity|].
  apply (shell_integration_never_truncates Sample.host_ok (PosixPath "/home/u/miniconda3")
           Sample.conda_world "/home/u/.bashrc" (File "# .bashrc")).
  reflexivity.
Defined.



End ShellMore.

(** ** The environment set-up, action by action (setup_conda.py) *)

Module SetupMore.
Import SetupConda SetupFacts.

(** What [run_command] does, by the fate of the process. *)
Lemma run_command_cases (h : host) (command : string) (check : bool) (w : world) :
  run_command h command check w
  = let '(o, files) :=
      run_process h (Shell command) None
        {| fs := fs w; trace := trace w ++ [Print ("Running: " +:+ command)] |} in
    let ran := trace w ++ [Print ("Running: " +:+ command); Run (Shell command)] in
    match o with
    | Exited r =>
        (if check && negb (returncode r =? 0)%Z
         then inl (CalledProcessError (returncode r) (Shell command))
         else inr r,
         {| fs := files; trace := ran ++ output_events r |})
    | NotStarted msg => (inl (FileNotFoundError msg), {| fs := files; trace := ran |})
    | Refused cls msg => (inl (OtherException cls msg), {| fs := files; trace := ran |})
    | Overran => (inl (TimeoutExpired (Shell command) 0), {| fs := files; trace := ran |})
    end.
Proof.
  unfold run_command, bind at 1, print, emit.
  unfold bind at 1, subprocess_run. cbn [fs trace].
  destruct (run_process h (Shell command) None _) as [[r|msg|cls msg|] files].
  - cbn [andb]. unfold output_events, bind, eprint, print, emit, ret, raise.
    destruct (Py.truthy_str (stdout r)), (Py.truthy_str (stderr r)),
      (check && negb (returncode r =? 0)%Z);
      cbn; f_equal; f_equal; trace_eq.
  - f_equal. f_equal. trace_eq.
  - f_equal. f_equal. trace_eq.
  - f_equal. f_equal. trace_eq.
Qed.

Lemma check_conda_installed_cases (h : host) (w : world) :
  check_conda_installed h w
  = let '(o, files) :=
      run_process h (Shell "conda --version") None
        {| fs := fs w; trace := trace w ++ [Print "Running: conda --version"] |} in
    let ran := trace w ++ [Print "Running: conda --version"; Run (Shell "conda --version")] in
    match o with
    | Exited r =>
        (inr (returncode r =? 0)%Z, {| fs := files; trace := ran ++ output_events r |})
    | NotStarted msg => (inr false, {| fs := files; trace := ran |})
    | Refused cls msg => (inl (OtherException cls msg), {| fs := files; trace := ran |})
    | Overran =>
        (inl (TimeoutExpired (Shell "conda --version") 0), {| fs := files; trace := ran |})
    end.
Proof.
  unfold check_conda_installed, try_except, bind. rewrite run_command_cases.
  destruct (run_process h _ None _) as [[r|msg|cls msg|] files]; try reflexivity.
  cbn [andb]. now destruct (returncode r =? 0)%Z.
Qed.

(** The version probe found no usable conda: the process exited with
    a status other than 0, or there was no program to start.  A probe
    that the system refuses to start, or that overruns, raises an
    exception the check does not catch. *)
Definition conda_missing (o : outcome) : Prop :=
  match o with
  | Exited r => returncode r ≠ 0%Z
  | NotStarted _ => True
  | Refused _ _ | Overran => False
  end.

Definition probe_output (o : outcome) : list event :=
  match o with
  | Exited r => output_events r
  | _ => []
  end.

(** X11: whatever the action, [list] included, [main] goes no further
    than the version probe when conda cannot be started or answers
    with a status other than 0: it prints the two lines of advice and
    exits with status 1; the probe is the only command run. *)
Theorem main_requires_conda (h : host) (a : args) (setup : CondaSetup) (w w1 : world)
    (o : outcome) (files : gmap string node) :
  init h (config_arg a) w = (inr setup, w1) →
  run_process h (Shell "conda --version") None
    {| fs := fs w1; trace := trace w1 ++ [Print "Running: conda --version"] |}
    = (o, files) →
  conda_missing o →
  run_main (main h a) w
  = (ExitStatus 1,
     {| fs := files;
        trace := trace w1
          ++ [Print "Running: conda --version"; Run (Shell "conda --version")]
          ++ probe_output o
          ++ [ Print "Error: conda is not installed or not in PATH";
               Print "Please install conda first: https://docs.conda.io/en/latest/miniconda.html" ] |}).
Proof.
  intros Hinit Hrun Hmiss.
  unfold run_main, main, bind at 1. rewrite Hinit.
  unfold bind at 1. rewrite check_conda_installed_cases, Hrun.
  destruct o as [r|msg|cls msg|]; cbn [conda_missing probe_output] in *;
    [| |contradiction..].
  - apply Z.eqb_neq in Hmiss. rewrite Hmiss. cbn. f_equal. f_equal. trace_eq.
  - cbn. f_equal. f_equal. trace_eq.
Qed.

Definition list_args : args :=
  {| act := ActList; env := "torchpy310"; config_arg := "config/environments.json" |}.

Lemma main_requires_conda_witness :
  conda_missing (NotStarted "[Errno 2] No such file or directory")
  ∧ run_main (main Sample.host_bare list_args) Sample.empty_world
    = (ExitStatus 1,
       {| fs := ∅;
          trace :=
            [ Probe "/repo/config/environments.json";
              Print "Running: conda --version";
              Run (Shell "conda --version");
              Print "Error: conda is not installed or not in PATH";
              Print "Please install conda first: https://docs.conda.io/en/latest/miniconda.html" ] |}).
Proof.
  split; [exact I|].
  apply (main_requires_conda Sample.host_bare list_args default_setup Sample.empty_world
           {| fs := ∅; trace := [Probe "/repo/config/environments.json"] |}
           (NotStarted "[Errno 2] No such file or directory") ∅).
  - reflexivity.
  - reflexivity.
  - exact I.
Defined.

(** The line [list_environments] prints for one environment. *)
Definition environment_line (item : string * env_config) : event :=
  Print ("  - " +:+ item.1 +:+ " (Python " +:+ python item.2 +:+ ")").

Lemma print_environments_spec (items : list (string * env_config)) (w : world) :
  print_environments items w
  = (inr tt, {| fs := fs w; trace := trace w ++ map environment_line items |}).
Proof.
  revert w. induction items as [|[n c] rest IH]; intros w.
  - cbn. rewrite app_nil_r. now destruct w.
  - cbn [print_environments map]. unfold bind, print, emit. rewrite IH.
    cbn [fs trace]. f_equal. f_equal. trace_eq.
Qed.

(** [str(Path(__file__).parent.parent / config_file)]. *)
Definition config_path (h : host) (config_file : string) : string :=
  path_div (script_root h) config_file.

(** X12: with nothing at the path of the configuration file and conda
    callable, the [list] action prints the header and then one line
    for each environment of the built-in configuration, torchpy310
    before torchpy311, and exits with status 0; it probes no conda.sh,
    runs no further command and leaves the files as the version
    probe left them. *)
Theorem list_action (h : host) (a : args) (w w2 : world) :
  act a = ActList →
  fs w !! config_path h (config_arg a) = None →
  check_conda_installed h
    {| fs := fs w; trace := trace w ++ [Probe (config_path h (config_arg a))] |}
    = (inr true, w2) →
  run_main (main h a) w
  = (ExitStatus 0,
     {| fs := fs w2;
        trace := trace w2
          ++ [ Print "Available environments:";
               Print "  - torchpy310 (Python 3.10)";
               Print "  - torchpy311 (Python 3.11)" ] |}).
Proof.
  intros Hact Hfile Hcheck.
  assert (Hinit : init h (config_arg a) w
                  = (inr {| config_file := config_arg a; config := default_config |},
                     {| fs := fs w;
                        trace := trace w ++ [Probe (config_path h (config_arg a))] |})).
  { unfold init, load_config, bind, path_exists, on_disk.
    fold (config_path h (config_arg a)). cbn [fs trace]. now rewrite Hfile. }
  unfold run_main, main, bind at 1. rewrite Hinit.
  unfold bind at 1. rewrite Hcheck. cbn [negb]. rewrite Hact.
  unfold list_environments, bind, print, emit. rewrite print_environments_spec.
  cbn [fs trace]. f_equal. f_equal. trace_eq.
Qed.

Lemma list_action_witness :
  act list_args = ActList
  ∧ run_main (main Sample.host_ok list_args) Sample.empty_world
    = (ExitStatus 0,
       {| fs := ∅;
          trace :=
            [ Probe "/repo/config/environments.json";
              Print "Running: conda --version";
              Run (Shell "conda --version");
              Print "Available environments:";
              Print "  - torchpy310 (Python 3.10)";
              Print "  - torchpy311 (Python 3.11)" ] |}).
Proof.
  split; [reflexivity|].
  apply (list_action Sample.host_ok list_args Sample.empty_world
           {| fs := ∅;
              trace := [ Probe "/repo/config/environments.json";
                         Print "Running: conda --version";
                         Run (Shell "conda --version") ] |}).
  - reflexivity.
  - reflexivity.
  - reflexivity.
Defined.

(** X13: a configuration file that exists and that [json.load] rejects
    ends the process before conda is looked for: the constructor is
    called outside every [try], so the exception of the parser leaves
    [main] uncaught, whatever the action; the file has been probed
    and read, and nothing else has happened. *)
Theorem malformed_config_uncaught (h : host) (a : args) (w : world) (text : string)
    (e : exn) :
  fs w !! config_path h (config_arg a) = Some (File text) →
  json_load h text = inl e →
  is_Exception e = true →
  run_main (main h a) w
  = (Uncaught e,
     {| fs := fs w;
        trace := trace w ++ [ Probe (config_path h (config_arg a));
                              ReadFile (config_path h (config_arg a)) ] |}).
Proof.
  intros Hfile Hjson He.
  unfold run_main, main, init, load_config, bind, path_exists, read_file, on_disk.
  fold (config_path h (config_arg a)). cbn [fs trace]. rewrite Hfile.
  cbn [fs trace]. rewrite Hfile, Hjson.
  unfold raise. destruct e; try discriminate He; f_equal; f_equal; trace_eq.
Qed.

Definition config_world : world :=
  {| fs := {[ "/repo/config/environments.json" := File "{" ]}; trace := [] |}.

Lemma malformed_config_uncaught_witness :
  fs config_world !! config_path Sample.host_ok (config_arg list_args) = Some (File "{")
  ∧ run_main (main Sample.host_ok list_args) config_world
    = (Uncaught (OtherException "JSONDecodeError" "Expecting value"),
       {| fs := fs config_world;
          trace := [ Probe "/repo/config/environments.json";
                     ReadFile "/repo/config/environments.json" ] |}).
Proof.
  split; [reflexivity|].
  apply (malformed_config_uncaught Sample.host_ok list_args config_world "{"
           (OtherException "JSONDecodeError" "Expecting value")).
  - reflexivity.
  - reflexivity.
  - reflexivity.
Defined.

(** What [create_activation_script] does, by the first candidate on
    disk and by the answer of the host when the script is opened. *)
Lemma create_activation_script_cases (h : host) (env_name : string) (w : world) :
  create_activation_script h env_name w
  = match List.find (on_disk (fs w)) (conda_sh_candidates h) with
    | Some sh =>
        let probes := map Probe (probed_until (fs w) (conda_sh_candidates h)) in
        let write := WriteFile (script_path h env_name) (script_content sh env_name) in
        match open_fails h (script_path h env_name)
                {| fs := fs w; trace := trace w ++ probes |} with
        | Some e =>
            (inl (exn_of e), {| fs := fs w; trace := trace w ++ probes ++ [write] |})
        | None =>
            (inr tt,
             {| fs := <[script_path h env_name := File (script_content sh env_name)]> (fs w);
                trace := trace w ++ probes
                  ++ [ write;
                       Chmod (script_path h env_name) 493;
                       Print ("Activation script created: " +:+ script_path h env_name) ] |})
        end
    | None =>
        (inl (RuntimeError "Conda not found"),
         {| fs := fs w; trace := trace w ++ map Probe (conda_sh_candidates h) |})
    end.
Proof.
  unfold create_activation_script, bind at 1, find_conda_path.
  rewrite first_existing_spec. fold (conda_sh_candidates h).
  destruct (List.find (on_disk (fs w)) (conda_sh_candidates h)) as [sh|] eqn:E.
  - apply find_some in E as [Hin _]. apply list_elem_of_In in Hin.
    cbn [truthy_opt_str str_opt]. rewrite (conda_sh_candidates_truthy h sh Hin).
    cbn [negb]. cbv zeta. unfold bind at 1, write_file. cbn [fs trace].
    destruct (open_fails h _ _) as [e|].
    + f_equal. f_equal. trace_eq.
    + unfold bind, chmod, print, emit, on_disk. cbn [fs trace].
      rewrite lookup_insert_eq. f_equal. f_equal. trace_eq.
  - cbn [truthy_opt_str negb]. now rewrite (probed_until_none _ _ E).
Qed.


(** *** The commands of [setup_environment] *)

(** [m] changes no file by itself, and the commands it runs are
    [cmds], in order, when it returns, and the first few of [cmds]
    when it raises. *)
Definition runs {A} (cmds : list command) (m : M A) : Prop :=
  ∀ w, ∃ evs,
    trace (m w).2 = trace w ++ evs
    ∧ Forall (λ e, modifies e = false) evs
    ∧ match (m w).1 with
      | inr _ => commands_of evs = cmds
      | inl _ => commands_of evs `prefix_of` cmds
      end.

Lemma runs_ret {A} (a : A) : runs [] (ret a).
Proof. intros w. exists []. cbn. now rewrite app_nil_r. Qed.

Lemma runs_raise {A} (cmds : list command) (e : exn) : runs cmds (@raise A e).
Proof.
  intros w. exists []. cbn. rewrite app_nil_r. repeat split; [constructor|].
  apply prefix_nil.
Qed.

Lemma runs_print (s : string) : runs [] (print s).
Proof. intros w. exists [Print s]. cbn. repeat split. now repeat constructor. Qed.

Lemma runs_bind {A B} (c1 c2 : list command) (m : M A) (k : A → M B) :
  runs c1 m → (∀ a, runs c2 (k a)) → runs (c1 ++ c2) (bind m k).
Proof.
  intros Hm Hk w. destruct (Hm w) as (evs1 & E1 & Hq1 & Hc1). unfold bind.
  destruct (m w) as [[e|a] w1]; cbn [fst snd] in *.
  - exists evs1. repeat split; [assumption..|].
    destruct Hc1 as [rest ->]. exists (rest ++ c2). now rewrite <- app_assoc.
  - destruct (Hk a w1) as (evs2 & E2 & Hq2 & Hc2).
    exists (evs1 ++ evs2). rewrite E2, E1, app_assoc.
    split; [reflexivity|]. split; [now apply Forall_app|].
    rewrite commands_of_app, Hc1.
    destruct (k a w1).1; [|now rewrite Hc2].
    destruct Hc2 as [rest ->]. exists rest. now rewrite app_assoc.
Qed.

Lemma runs_find_conda_path (h : host) : runs [] (find_conda_path h).
Proof.
  intros w. unfold find_conda_path. rewrite first_existing_spec. cbn [fst snd trace].
  eexists. split; [reflexivity|]. split; [apply no_modifies_probes|apply commands_of_probes].
Qed.

Lemma no_modifies_output (r : completed) :
  Forall (λ e, modifies e = false) (output_events r).
Proof.
  unfold output_events.
  destruct (Py.truthy_str (stdout r)), (Py.truthy_str (stderr r)); now repeat constructor.
Qed.

(** [run_command] runs its command, once, whatever comes of it. *)
Lemma runs_run_command (h : host) (command : string) (check : bool) :
  runs [Shell command] (run_command h command check).
Proof.
  intros w. rewrite run_command_cases.
  destruct (run_process h _ None _) as [[r|msg|cls msg|] files]; cbn [fst snd trace].
  - rewrite <- app_assoc. eexists. split; [reflexivity|]. split.
    + apply Forall_app. split; [now repeat constructor|apply no_modifies_output].
    + rewrite commands_of_app, commands_of_output.
      now destruct (check && negb (returncode r =? 0)%Z).
  - eexists. split; [reflexivity|]. split; [now repeat constructor|reflexivity].
  - eexists. split; [reflexivity|]. split; [now repeat constructor|reflexivity].
  - eexists. split; [reflexivity|]. split; [now repeat constructor|reflexivity].
Qed.

Lemma runs_setup_environment (h : host) (self : CondaSetup) (env_name : string)
    (env_config : env_config) :
  dict_get env_name (environments (config self)) = Some env_config →
  runs (map Shell (planned_commands env_name env_config))
    (setup_environment h self env_name).
Proof.
  intros Hget. unfold setup_environment.
  rewrite (dict_get_mem _ _ _ Hget), Hget. cbn [negb].
  unfold planned_commands. cbn [map]. rewrite map_app.
  apply (runs_bind [] _); [apply runs_print|intros _].
  apply (runs_bind [] _); [apply runs_print|intros _].
  apply (runs_bind [_] _); [apply runs_run_command|intros _].
  apply (runs_bind [] _); [apply runs_find_conda_path|intros conda_path].
  destruct (negb (truthy_opt_str conda_path)); [apply runs_raise|].
  apply runs_bind.
  { destruct (Py.truthy_list (conda (packages env_config))); [|apply runs_ret].
    rewrite <- (app_nil_r (map Shell _)).
    apply runs_bind; [apply runs_run_command|intros _; apply runs_ret]. }
  intros _. rewrite <- (app_nil_r (map Shell _)).
  apply runs_bind; [|intros _; apply runs_print].
  destruct (Py.truthy_list (pip (packages env_config))); [|apply runs_ret].
  rewrite <- (app_nil_r (map Shell _)).
  apply runs_bind; [apply runs_run_command|intros _; apply runs_ret].
Qed.

(** X15: on every host and in every state, [setup_environment] for a
    configured environment runs the planned command lines in their
    order and stops at the first that fails: the commands run are
    the first few of the create command, the conda install command
    (when the conda list is not empty) and the pip install command
    (when the pip list is not empty), all of them when it returns;
    and it writes, appends, deletes and downloads nothing itself. *)
Theorem setup_environment_commands (h : host) (self : CondaSetup) (env_name : string)
    (env_config : env_config) (w : world) :
  dict_get env_name (environments (config self)) = Some env_config →
  ∃ evs,
    trace (setup_environment h self env_name w).2 = trace w ++ evs
    ∧ Forall (λ e, modifies e = false) evs
    ∧ commands_of evs `prefix_of` map Shell (planned_commands env_name env_config)
    ∧ ((setup_environment h self env_name w).1 = inr tt →
       commands_of evs = map Shell (planned_commands env_name env_config)).
Proof.
  intros Hget.
  destruct (runs_setup_environment h self env_name env_config Hget w)
    as (evs & Ht & Hq & Hc).
  exists evs. split; [exact Ht|]. split; [exact Hq|].
  destruct (setup_environment h self env_name w).1 as [e|[]].
  - split; [exact Hc|discriminate].
  - split; [now rewrite Hc|now intros _].
Qed.

Lemma setup_environment_commands_witness :
  dict_get "torchpy311" (environments (config default_setup))
    = Some {| python := "3.11"; packages := default_packages;
              channels := ["pytorch"; "nvidia"; "conda-forge"] |}
  ∧ ∃ evs,
      trace (setup_environment Sample.host_bare default_setup "torchpy311"
               Sample.empty_world).2
        = trace Sample.empty_world ++ evs
      ∧ Forall (λ e, modifies e = false) evs
      ∧ commands_of evs
        `prefix_of` map Shell
          (planned_commands "torchpy311"
             {| python := "3.11"; packages := default_packages;
                channels := ["pytorch"; "nvidia"; "conda-forge"] |})
      ∧ ((setup_environment Sample.host_bare default_setup "torchpy311"
            Sample.empty_world).1 = inr tt →
         commands_of evs
         = map Shell
             (planned_commands "torchpy311"
                {| python := "3.11"; packages := default_packages;
                   channels := ["pytorch"; "nvidia"; "conda-forge"] |})).
Proof.
  split; [reflexivity|].
  apply (setup_environment_commands Sample.host_bare default_setup "torchpy311"
           {| python := "3.11"; packages := default_packages;
              channels := ["pytorch"; "nvidia"; "conda-forge"] |}
           Sample.empty_world).
  reflexivity.
Defined.

(** X16: the environment is created before conda.sh is looked for: when
    the create command exits with status 0 and conda.sh is then at
    none of the four candidate paths, [setup_environment] raises
    [RuntimeError] with the text "Conda not found. Please install
    conda first.", having run the create command and no package
    command. *)
Theorem setup_stops_without_conda_sh (h : host) (self : CondaSetup) (env_name : string)
    (env_config : env_config) (w : world) (r : completed) (files : gmap string node) :
  dict_get env_name (environments (config self)) = Some env_config →
  run_process h (Shell (create_cmd env_name env_config)) None
    {| fs := fs w;
       trace := trace w
         ++ [ Print ("Setting up environment: " +:+ env_name);
              Print ("Python version: " +:+ python env_config);
              Print ("Running: " +:+ create_cmd env_name env_config) ] |}
    = (Exited r, files) →
  returncode r = 0%Z →
  (∀ p, p ∈ conda_sh_candidates h → files !! p = None) →
  setup_environment h self env_name w
  = (inl (RuntimeError "Conda not found. Please install conda first."),
     {| fs := files;
        trace := trace w
          ++ [ Print ("Setting up environment: " +:+ env_name);
               Print ("Python version: " +:+ python env_config);
               Print ("Running: " +:+ create_cmd env_name env_config);
               Run (Shell (create_cmd env_name env_config)) ]
          ++ output_events r
          ++ map Probe (conda_sh_candidates h) |}).
Proof.
  intros Hget Hrun Hrc Hnone. unfold setup_environment.
  rewrite (dict_get_mem _ _ _ Hget), Hget. cbn [negb].
  unfold bind at 1, print, emit. unfold bind at 1. cbn [fs trace].
  unfold bind at 1. rewrite run_command_cases. cbn [fs trace].
  rewrite <- !app_assoc. cbn [app]. rewrite Hrun, Hrc. cbn [Z.eqb negb andb].
  unfold bind at 1. rewrite find_conda_path_none by exact Hnone.
  cbn [truthy_opt_str negb fs trace]. unfold raise. f_equal. f_equal. trace_eq.
Qed.

Lemma setup_stops_without_conda_sh_witness :
  (∀ p, p ∈ conda_sh_candidates Sample.host_ok → (∅ : gmap string node) !! p = None)
  ∧ setup_environment Sample.host_ok envA_setup "envA" Sample.empty_world
    = (inl (RuntimeError "Conda not found. Please install conda first."),
       {| fs := ∅;
          trace :=
            [ Print "Setting up environment: envA";
              Print "Python version: 3.10";
              Print "Running: conda create -n envA python=3.10 -y";
              Run (Shell "conda create -n envA python=3.10 -y");
              Probe "/home/u/miniconda3/etc/profile.d/conda.sh";
              Probe "/home/u/anaconda3/etc/profile.d/conda.sh";
              Probe "/opt/conda/etc/profile.d/conda.sh";
              Probe "/usr/local/conda/etc/profile.d/conda.sh" ] |}).
Proof.
  assert (H : ∀ p, p ∈ conda_sh_candidates Sample.host_ok
                   → (∅ : gmap string node) !! p = None)
    by (intros p _; apply lookup_empty).
  split; [exact H|].
  apply (setup_stops_without_conda_sh Sample.host_ok envA_setup "envA" envA
           Sample.empty_world Sample.quiet ∅).
  - reflexivity.
  - reflexivity.
  - reflexivity.
  - exact H.
Defined.

(** *** The [setup] action *)

Lemma run_command_raises (h : host) (command : string) (check : bool) :
  raises_only (λ e, is_Exception e = true) (run_command h command check).
Proof.
  intros w e w'. rewrite run_command_cases.
  destruct (run_process h _ None _) as [[r|msg|cls msg|] files].
  - destruct (check && negb (returncode r =? 0)%Z); [|discriminate]. now intros [= <- _].
  - now intros [= <- _].
  - now intros [= <- _].
  - now intros [= <- _].
Qed.

Lemma setup_environment_raises (h : host) (self : CondaSetup) (env_name : string) :
  raises_only (λ e, is_Exception e = true) (setup_environment h self env_name).
Proof.
  unfold setup_environment, find_conda_path, print.
  repeat first [ apply run_command_raises | raises_step ]; reflexivity.
Qed.

Lemma create_activation_script_raises (h : host) (env_name : string) :
  raises_only (λ e, is_Exception e = true) (create_activation_script h env_name).
Proof.
  intros w e w'. rewrite create_activation_script_cases.
  destruct (List.find _ _); [|now intros [= <- _]].
  cbv zeta. destruct (open_fails h _ _) as [err|]; [|discriminate].
  intros [= <- _]. now destruct err.
Qed.

(** X17: under the [setup] action, with the configuration loaded and
    conda callable, no exception leaves [main]: the process exits
    with status 0, and then the activation script is on disk with the
    text generated for one of the four candidates; or it exits with
    status 1, and then the last thing it printed is "Error setting up
    environment: " followed by the text of the exception caught. *)
Theorem setup_action_exit (h : host) (a : args) (setup : CondaSetup) (w w1 w2 : world) :
  act a = ActSetup →
  init h (config_arg a) w = (inr setup, w1) →
  check_conda_installed h w1 = (inr true, w2) →
  ∃ w',
    (run_main (main h a) w = (ExitStatus 0, w')
     ∧ ∃ sh, sh ∈ conda_sh_candidates h
             ∧ fs w' !! script_path h (env a) = Some (File (script_content sh (env a))))
    ∨ (run_main (main h a) w = (ExitStatus 1, w')
       ∧ ∃ e evs,
           is_Exception e = true
           ∧ trace w' = evs ++ [Print ("Error setting up environment: " +:+ str_exn h e)]).
Proof.
  intros Hact Hinit Hcheck.
  assert (Hmain : run_main (main h a) w
                  = run_main
                      (try_except
                         (setup_environment h setup (env a);;
                          create_activation_script h (env a))
                         is_Exception
                         (λ e, print ("Error setting up environment: " +:+ str_exn h e);;
                               sys_exit 1)) w2).
  { unfold run_main, main, bind at 1. rewrite Hinit.
    unfold bind at 1. rewrite Hcheck. cbn [negb]. now rewrite Hact. }
  rewrite Hmain. clear Hmain. unfold run_main, try_except.
  destruct ((setup_environment h setup (env a);; create_activation_script h (env a)) w2)
    as [[e|[]] w3] eqn:E.
  - assert (He : is_Exception e = true).
    { revert E. apply (raises_only_bind (λ e, is_Exception e = true));
        [apply setup_environment_raises|intros _; apply create_activation_script_raises]. }
    rewrite He. unfold bind, print, emit, sys_exit, raise. eexists. right.
    split; [reflexivity|]. exists e. eexists. split; [exact He|reflexivity].
  - exists w3. left. split; [reflexivity|].
    unfold bind in E. destruct (setup_environment h setup (env a) w2) as [[e|[]] w4];
      [discriminate|].
    rewrite create_activation_script_cases in E.
    destruct (List.find (on_disk (fs w4)) (conda_sh_candidates h)) as [sh|] eqn:F;
      [|discriminate].
    cbv zeta in E. destruct (open_fails h _ _); [discriminate|].
    injection E as <-. exists sh. split.
    + apply find_some in F as [Hin _]. now apply list_elem_of_In.
    + apply lookup_insert_eq.
Qed.

Definition setup_args : args :=
  {| act := ActSetup; env := "torchpy310"; config_arg := "config/environments.json" |}.

Lemma setup_action_exit_witness :
  act setup_args = ActSetup
  ∧ ∃ w',
      (run_main (main Sample.host_ok setup_args) Sample.conda_world = (ExitStatus 0, w')
       ∧ ∃ sh, sh ∈ conda_sh_candidates Sample.host_ok
               ∧ fs w' !! script_path Sample.host_ok (env setup_args)
                 = Some (File (script_content sh (env setup_args))))
      ∨ (run_main (main Sample.host_ok setup_args) Sample.conda_world = (ExitStatus 1, w')
         ∧ ∃ e evs,
             is_Exception e = true
             ∧ trace w'
               = evs ++ [Print ("Error setting up environment: "
                                +:+ str_exn Sample.host_ok e)]).
Proof.
  split; [reflexivity|].
  apply (setup_action_exit Sample.host_ok setup_args default_setup Sample.conda_world
           {| fs := fs Sample.conda_world;
              trace := [Probe "/repo/config/environments.json"] |}
           {| fs := fs Sample.conda_world;
              trace := [ Probe "/repo/config/environments.json";
                         Print "Running: conda --version";
                         Run (Shell "conda --version") ] |}).
  - reflexivity.
  - reflexivity.
  - reflexivity.
Defined.

End SetupMore.

(** ** The requirements installer, to its exit (install_requirements.py) *)

Module RequirementsMore.
Import InstallRequirements RequirementsFacts.

(** The pip command line for the interpreter the run resolves. *)
Definition pip_command (h : host) (a : args) (w : world) : command :=
  Argv [ resolved h (fs w) (python_arg a); "-m"; "pip"; "install"; "-r"; requirements a ].

(** The interpreter is resolved by one probe of the manifest and the
    search of the candidates, when no path is given. *)
Definition resolution_probes (h : host) (a : args) (w : world) : list event :=
  Probe (requirements a)
  :: match python_arg a with
     | Some _ => []
     | None => map Probe (probed_until (fs w) (interpreter_candidates h))
     end.

(** What [install_requirements] answers with, and prints after the
    attempt, by the fate of pip. *)
Definition answer (cmd : command) (o : outcome) : exn + bool :=
  match o with
  | Exited r => inr (returncode r =? 0)%Z
  | NotStarted msg => inl (FileNotFoundError msg)
  | Refused cls msg => inl (OtherException cls msg)
  | Overran => inl (TimeoutExpired cmd 0)
  end.

Definition verdict (h : host) (cmd : command) (o : outcome) : list event :=
  match o with
  | Exited r =>
      if (returncode r =? 0)%Z then [Print "✅ Requirements installed successfully!"]
      else [Print ("❌ Error installing requirements: "
                   +:+ str_CalledProcessError h (returncode r) cmd)]
  | _ => []
  end.

(** The world pip is started in. *)
Definition before_pip (h : host) (a : args) (w : world) : world :=
  {| fs := fs w;
     trace := trace w ++ resolution_probes h a w
              ++ [ Print ("Using Python: " +:+ resolved h (fs w) (python_arg a));
                   Print ("Installing from: " +:+ requirements a) ] |}.

Ltac same_trace :=
  f_equal; f_equal; cbn [trace fs default from_option id];
  repeat (progress (rewrite <- ?app_assoc; cbn [app])); reflexivity.

Lemma install_requirements_cases (h : host) (a : args) (w : world) :
  on_disk (fs w) (requirements a) = true →
  install_requirements h (requirements a) (python_arg a) w
  = let '(o, files) := run_process h (pip_command h a w) None (before_pip h a w) in
    (answer (pip_command h a w) o,
     {| fs := files;
        trace := trace (before_pip h a w)
                 ++ Run (pip_command h a w) :: verdict h (pip_command h a w) o |}).
Proof.
  intros Hfile.
  unfold install_requirements, bind at 1, path_exists. rewrite Hfile. cbn [negb].
  unfold pip_command, before_pip, resolution_probes.
  destruct (python_arg a) as [p|] eqn:Hp.
  - unfold bind at 1, ret. unfold bind at 1, print, emit. unfold bind at 1. cbn [fs trace resolved].
    unfold try_except, bind, subprocess_run. cbn [fs trace]. rewrite <- !app_assoc. cbn [app].
    destruct (run_process h _ None _) as [[r|msg|cls msg|] files]; cbn [answer verdict andb].
    + destruct (returncode r =? 0)%Z; cbn [negb str_exn]; unfold emit, ret; cbn [fs trace];
        same_trace.
    + same_trace.
    + same_trace.
    + same_trace.
  - unfold bind at 1. unfold bind at 1. rewrite first_existing_spec.
    fold (interpreter_candidates h). cbn [fs trace resolved].
    destruct (List.find (on_disk (fs w)) (interpreter_candidates h)) as [p|] eqn:F;
      cbn [default]; unfold ret.
    all: unfold bind at 1, print, emit; unfold bind at 1; cbn [fs trace].
    all: unfold try_except, bind, subprocess_run; cbn [fs trace]; rewrite <- !app_assoc; cbn [app].
    all: destruct (run_process h _ None _) as [[r|msg|cls msg|] files]; cbn [answer verdict andb];
      [|same_trace..].
    all: destruct (returncode r =? 0)%Z; cbn [negb str_exn]; unfold emit, ret; cbn [fs trace];
        same_trace.
Qed.

(** How the process ends, by the fate of pip. *)
Definition ending (cmd : command) (o : outcome) : termination :=
  match o with
  | Exited r => ExitStatus (if (returncode r =? 0)%Z then 0 else 1)
  | NotStarted msg => Uncaught (FileNotFoundError msg)
  | Refused cls msg => Uncaught (OtherException cls msg)
  | Overran => Uncaught (TimeoutExpired cmd 0)
  end.

(** What [main] prints once [install_requirements] is back. *)
Definition farewell (o : outcome) : list event :=
  match o with
  | Exited r =>
      if (returncode r =? 0)%Z then
        [ Print (NL +:+ "🎉 Installation completed!");
          Print "You can now use the environment with:";
          Print "  python scripts/utils/test_gpu.py" ]
      else [Print (NL +:+ "❌ Installation failed!")]
  | _ => []
  end.

(** X18: with the manifest on disk, the exit of the process follows
    pip: status 0 when pip exits with 0; status 1, after the error
    line with the text of the [CalledProcessError] and the line
    "Installation failed!", when pip exits with another status; and
    when the interpreter cannot be started, the [FileNotFoundError]
    is not caught and leaves [main], nothing being printed after the
    attempt.  The files are as pip left them. *)
Theorem requirements_exit (h : host) (a : args) (w : world) (o : outcome)
    (files : gmap string node) :
  on_disk (fs w) (requirements a) = true →
  run_process h (pip_command h a w) None (before_pip h a w) = (o, files) →
  run_main (main h a) w
  = (ending (pip_command h a w) o,
     {| fs := files;
        trace := trace (before_pip h a w)
                 ++ Run (pip_command h a w)
                    :: verdict h (pip_command h a w) o ++ farewell o |}).
Proof.
  intros Hfile Hrun.
  unfold run_main, main, bind at 1.
  rewrite (install_requirements_cases h a w Hfile), Hrun.
  destruct o as [r|msg|cls msg|]; cbn [answer ending verdict farewell].
  - destruct (returncode r =? 0)%Z; unfold bind, print, emit, sys_exit, raise;
      cbn [fs trace]; same_trace.
  - now rewrite app_nil_r.
  - now rewrite app_nil_r.
  - now rewrite app_nil_r.
Qed.

Lemma requirements_exit_witness :
  on_disk (fs Sample.conda_world) "requirements.txt" = true
  ∧ run_main (main Sample.host_bare
                {| requirements := "requirements.txt"; python_arg := Some "python3.12" |})
      Sample.conda_world
    = (Uncaught (FileNotFoundError "[Errno 2] No such file or directory"),
       {| fs := fs Sample.conda_world;
          trace :=
            [ Probe "requirements.txt";
              Print "Using Python: python3.12";
              Print "Installing from: requirements.txt";
              Run (Argv ["python3.12"; "-m"; "pip"; "install"; "-r"; "requirements.txt"]) ] |}).
Proof.
  split; [reflexivity|].
  apply (requirements_exit Sample.host_bare
           {| requirements := "requirements.txt"; python_arg := Some "python3.12" |}
           Sample.conda_world
           (NotStarted "[Errno 2] No such file or directory")
           (fs Sample.conda_world)).
  - reflexivity.
  - reflexivity.
Defined.

(** The actions the script may take: printing, probing a path, and
    running pip on its manifest. *)
Definition permitted (a : args) (e : event) : Prop :=
  match e with
  | Print _ | Probe _ => True
  | Run cmd =>
      ∃ python_path, cmd = Argv [python_path; "-m"; "pip"; "install"; "-r"; requirements a]
  | _ => False
  end.

(** X19: whatever its arguments, the host and the state, the script
    itself only prints, probes paths and runs pip: it reads, writes,
    appends to, deletes and downloads no file, and a command it runs
    is a [-m pip install -r] of its manifest. *)
Theorem requirements_discipline (h : host) (a : args) (w : world) :
  ∃ evs, trace (main h a w).2 = trace w ++ evs ∧ Forall (permitted a) evs.
Proof.
  revert w. change (within (permitted a) (main h a)).
  unfold main, install_requirements, sys_exit, print.
  repeat within_step; try exact I; now eexists.
Qed.

End RequirementsMore.

(** ** The two flavors of the download table (install_conda.py) *)

Module UrlMore.
Import InstallConda UrlFacts.

(** The platform names the installers are published under. *)
Definition platforms : list string :=
  [ "Linux-x86_64"; "Linux-aarch64"; "MacOSX-x86_64"; "MacOSX-arm64" ].

Ltac pick platform :=
  left; exists platform;
  split; [rewrite !elem_of_cons; tauto|];
  split; [reflexivity|];
  split; [reflexivity|];
  first [left; split; [assumption|reflexivity] | right; split; [assumption|reflexivity]].

(** X20: the two flavors support the same platforms and name them
    alike: for one installer object, either both flavors get a URL,
    [<base>/miniconda/Miniconda3-latest-<platform>.sh] and
    [<base>/archive/Anaconda3-2023.09-0-<platform>.sh] with the same
    platform name, a Linux one on linux and a MacOSX one on darwin; or
    both raise the same [RuntimeError]. *)
Theorem flavors_share_platforms (self : CondaInstaller) :
  (∃ platform,
     platform ∈ platforms
     ∧ get_download_url self "miniconda"
       = inr (base_url +:+ "/miniconda/Miniconda3-latest-" +:+ platform +:+ ".sh")
     ∧ get_download_url self "anaconda"
       = inr (base_url +:+ "/archive/Anaconda3-2023.09-0-" +:+ platform +:+ ".sh")
     ∧ (system self = "linux" ∧ String.prefix "Linux-" platform = true
        ∨ system self = "darwin" ∧ String.prefix "MacOSX-" platform = true))
  ∨ (get_download_url self "miniconda" = inl (unsupported self)
     ∧ get_download_url self "anaconda" = inl (unsupported self)).
Proof.
  unfold get_download_url, unsupported, platforms.
  change (String.eqb "miniconda" "miniconda") with true.
  change (String.eqb "anaconda" "miniconda") with false.
  change (String.eqb "anaconda" "anaconda") with true.
  cbv iota.
  destruct (String.eqb_spec (system self) "linux") as [Hl|Hl];
    [|destruct (String.eqb_spec (system self) "darwin") as [Hd|Hd]].
  - destruct ("x86_64" in_str machine self), ("amd64" in_str machine self),
      ("aarch64" in_str machine self), ("arm64" in_str machine self);
      cbn [orb]; try (right; split; reflexivity).
    all: first [ solve [pick "Linux-x86_64"] | solve [pick "Linux-aarch64"] ].
  - destruct ("x86_64" in_str machine self),
      ("aarch64" in_str machine self), ("arm64" in_str machine self);
      cbn [orb]; try (right; split; reflexivity).
    all: first [ solve [pick "MacOSX-x86_64"] | solve [pick "MacOSX-arm64"] ].
  - right. split; reflexivity.
Qed.

End UrlMore.
